(** * ReadLater services: feed parser, markdown converter, article store, summarizer

    A shallow embedding of the four service modules of the application

      - src/services/rssParser.ts       (RSSParser)
      - src/services/urlToMarkdown.ts   (URLToMarkdownConverter)
      - src/services/storageService.ts  (StorageService)
      - src/services/aiSummarizer.ts    (AISummarizer, both revisions)

    together with the part of the browser platform they call: DOM trees,
    [querySelector]/[querySelectorAll] for the selectors that occur in the
    sources, [textContent], [getAttribute], string primitives, an IndexedDB
    object store with in-line keys, the clock and [fetch].

    Conventions.
    - A JavaScript string is the list of its UTF-16 code units ([list N]).
    - The output of [DOMParser.parseFromString] is the input of the embedded
      functions: the XML and HTML parsers themselves are platform code.
    - An exception is a value of [exn]; code that may throw lives in the
      [result] monad, and [a || b] on strings only evaluates [b] when [a]
      is the empty string, as in the source. *)

From Stdlib Require Import ZArith NArith List Ascii String Bool Lia Sorted.
From stdpp Require Import base option list gmap.
Import ListNotations.

Local Open Scope N_scope.

(** ** Strings *)

Module JsString.

(** A string literal of the source, as code units (the literals of the
    sources are ASCII). *)
Definition js (s : string) : list N :=
  List.map N_of_ascii (list_ascii_of_string s).

Definition nl : list N := [10].

Fixpoint eqb (s t : list N) : bool :=
  match s, t with
  | [], [] => true
  | c :: s', d :: t' => N.eqb c d && eqb s' t'
  | _, _ => false
  end.

(** [!s] for a string: only the empty string is falsy. *)
Definition truthy (s : list N) : bool :=
  match s with [] => false | _ :: _ => true end.

(** ECMAScript WhiteSpace and LineTerminator code points (all of them lie
    in the basic plane, so each is one code unit). *)
Definition isWhiteSpace (c : N) : bool :=
  existsb (N.eqb c)
    [9; 10; 11; 12; 13; 32; 160; 5760; 8232; 8233; 8239; 8287; 12288; 65279]
  || ((8192 <=? c) && (c <=? 8202)).

Fixpoint trimStart (s : list N) : list N :=
  match s with
  | c :: s' => if isWhiteSpace c then trimStart s' else s
  | [] => []
  end.

Definition trimEnd (s : list N) : list N := rev (trimStart (rev s)).

(** [String.prototype.trim] *)
Definition trim (s : list N) : list N := trimEnd (trimStart s).

(** [String.prototype.toLowerCase], on the ASCII letters.  The case
    mapping of the other code points is not part of the model. *)
Definition lowerUnit (c : N) : N :=
  if (65 <=? c) && (c <=? 90) then c + 32 else c.

Definition toLowerCase (s : list N) : list N := List.map lowerUnit s.

Fixpoint startsWith (s q : list N) : bool :=
  match q, s with
  | [], _ => true
  | c :: q', d :: s' => N.eqb c d && startsWith s' q'
  | _ :: _, [] => false
  end.

(** [String.prototype.includes] *)
Fixpoint includes (s q : list N) : bool :=
  startsWith s q ||
  match s with
  | [] => false
  | _ :: s' => includes s' q
  end.

(** [String.prototype.substr (start, length)] for non-negative arguments *)
Definition substr (start len : nat) (s : list N) : list N :=
  take len (drop start s).

(** Decimal rendering of a number, as [`${n}`] does for an integer. *)
Fixpoint digitsFuel (fuel : nat) (n : N) (acc : list N) : list N :=
  match fuel with
  | O => acc
  | S fuel' =>
      let acc' := (48 + n mod 10) :: acc in
      if n <? 10 then acc' else digitsFuel fuel' (n / 10) acc'
  end.

Definition ofN (n : N) : list N := digitsFuel (S (N.to_nat (N.log2 n))) n [].

Definition ofZ (z : Z) : list N :=
  match z with
  | Zneg p => 45 :: ofN (Npos p)
  | _ => ofN (Z.to_N z)
  end.

(** Left padding with zeros, as used by the date formatter. *)
Definition padStart0 (width : nat) (s : list N) : list N :=
  repeat 48 (width - length s)%nat ++ s.

End JsString.

Import JsString.

(** ** Exceptions *)

Inductive exn : Type :=
| Error (message : list N)            (* [new Error(message)] *)
| SyntaxError                         (* invalid selector, invalid JSON *)
| TypeError                           (* property read on null / undefined *)
| ConstraintError                     (* IndexedDB: key already present *)
| NetworkError.                       (* rejected [fetch] *)

Inductive result (A : Type) : Type :=
| Ok (a : A)
| Err (e : exn).
Arguments Ok {A} a.
Arguments Err {A} e.

#[global] Instance result_ret : MRet result := fun A a => Ok a.
#[global] Instance result_bind : MBind result := fun A B f m =>
  match m with
  | Ok a => f a
  | Err e => Err e
  end.

#[global] Instance result_fmap : FMap result := fun A B f m =>
  match m with
  | Ok a => Ok (f a)
  | Err e => Err e
  end.

(** The errors of the specification's taxonomy, as the sources raise them. *)
Definition MalformedFeed : exn := Error (js "Invalid RSS/Atom feed").
Definition NotInitialized : exn := Error (js "Database not initialized").
Definition MissingCredential : exn := Error (js "API key is required").
Definition TransportFailure (statusText : list N) : exn :=
  Error (js "API request failed: " ++ statusText).

(** [a || b] on strings that may throw: [b] is evaluated only if [a] is
    the empty string. *)
Definition orElse (a b : result (list N)) : result (list N) :=
  x ← a; if truthy x then mret x else b.
Infix "|||" := orElse (at level 50, left associativity).

Definition lit (s : string) : result (list N) := mret (js s).

(** ** DOM trees *)

(** Text (including CDATA sections), comments and elements.  [tag] is the
    local name of the element: the name a type selector is compared with,
    and, for the elements of a parsed HTML document, the lower-case form of
    [tagName]. *)
#[warnings="-register-all"]
Inductive node : Type :=
| Text (data : list N)
| Comment (data : list N)
| Element (tag : list N) (attrs : list (list N * list N)) (children : list node).

(** [quirks] is the document mode the HTML parser chose (always [false] for
    an XML document); [nodes] are the children of the document node. *)
Record document : Type := Document {
  quirks : bool;
  nodes : list node
}.

Module Dom.

Definition isElement (n : node) : bool :=
  match n with Element _ _ _ => true | _ => false end.

Definition tagOf (n : node) : list N :=
  match n with Element t _ _ => t | _ => [] end.

Definition childNodes (n : node) : list node :=
  match n with Element _ _ cs => cs | _ => [] end.

(** Concatenated data of the text descendants, in tree order. *)
Fixpoint descendantText (n : node) : list N :=
  match n with
  | Text d => d
  | Comment _ => []
  | Element _ _ cs => flat_map descendantText cs
  end.

(** [Node.textContent] *)
Definition textContent (n : node) : list N :=
  match n with
  | Comment d => d
  | _ => descendantText n
  end.

(** The element [n] followed by its descendant elements, in tree order
    (nothing for a node that is not an element). *)
Fixpoint inclusiveElements (n : node) : list node :=
  match n with
  | Element _ _ cs => n :: flat_map inclusiveElements cs
  | _ => []
  end.

(** The elements [Element.querySelectorAll] ranges over: the descendants
    of the element, itself excluded. *)
Definition descendants (n : node) : list node :=
  flat_map inclusiveElements (childNodes n).

(** The elements [Document.querySelectorAll] ranges over. *)
Definition documentElements (d : document) : list node :=
  flat_map inclusiveElements (nodes d).

(** [Element.getAttribute]: the value of the first attribute of that name *)
Fixpoint lookupAttr (attrs : list (list N * list N)) (name : list N)
  : option (list N) :=
  match attrs with
  | [] => None
  | (k, v) :: rest => if eqb k name then Some v else lookupAttr rest name
  end.

Definition getAttribute (n : node) (name : list N) : option (list N) :=
  match n with
  | Element _ attrs _ => lookupAttr attrs name
  | _ => None
  end.

(** [x || ''] for an attribute value that may be null. *)
Definition orEmpty (o : option (list N)) : list N :=
  match o with Some v => v | None => [] end.

(** The tokens of a [class] attribute: split on ASCII whitespace. *)
Definition isAsciiSpace (c : N) : bool :=
  existsb (N.eqb c) [9; 10; 12; 13; 32].

Fixpoint splitTokens (s cur : list N) : list (list N) :=
  match s with
  | [] => match cur with [] => [] | _ => [rev cur] end
  | c :: s' =>
      if isAsciiSpace c
      then match cur with
           | [] => splitTokens s' []
           | _ => rev cur :: splitTokens s' []
           end
      else splitTokens s' (c :: cur)
  end.

Definition classList (n : node) : list (list N) :=
  splitTokens (orEmpty (getAttribute n (js "class"))) [].

End Dom.

(** ** Selectors *)

(** The selector strings of the sources are compound selectors made of a
    type selector, a class selector, an attribute-equality selector, or a
    colon followed by an identifier, possibly joined in a comma-separated
    list:

      ['title']                 [[Tag "title"]]
      ['.sidebar']              [[Class "sidebar"]]
      ['meta[name="author"]']   [[Tag "meta"; AttrEq "name" "author"]]
      ['item, entry']           [[Tag "item"]], [[Tag "entry"]]
      ['dc:creator']            [[Tag "dc"; Pseudo "creator"]]

    In a selector a colon introduces a pseudo-class (a namespace prefix is
    written with [|] and must be declared), so ['dc:creator'] reads as the
    type selector [dc] with the pseudo-class [:creator].  No pseudo-class of
    that name exists; such a selector does not parse, and [querySelector]
    and [querySelectorAll] throw a [SyntaxError] for it. *)
Inductive simple : Type :=
| Tag (name : list N)
| Class (name : list N)
| AttrEq (attr value : list N)
| Pseudo (name : list N).

Module Selector.

(** Pseudo-classes without arguments that the selector engine knows
    (Selectors Level 3 and the common Level 4 additions). *)
Definition knownPseudoClasses : list (list N) :=
  List.map js
    ["root"; "empty"; "first-child"; "last-child"; "only-child";
     "first-of-type"; "last-of-type"; "only-of-type"; "link"; "visited";
     "any-link"; "hover"; "active"; "focus"; "focus-within"; "focus-visible";
     "target"; "enabled"; "disabled"; "checked"; "indeterminate"; "default";
     "required"; "optional"; "valid"; "invalid"; "in-range"; "out-of-range";
     "read-only"; "read-write"; "placeholder-shown"; "defined"; "scope"]%string.

Definition parses (s : simple) : bool :=
  match s with
  | Pseudo name => existsb (eqb name) knownPseudoClasses
  | _ => true
  end.

Definition valid (sel : list (list simple)) : bool :=
  forallb (forallb parses) sel.

(** Class names compare ASCII case-insensitively in quirks mode. *)
Definition classEq (q : bool) (a b : list N) : bool :=
  if q then eqb (toLowerCase a) (toLowerCase b) else eqb a b.

(** The structural pseudo-classes are not used by the sources; the model
    gives them no matches. *)
Definition matchesSimple (q : bool) (e : node) (s : simple) : bool :=
  match s with
  | Tag name => eqb name (Dom.tagOf e)
  | Class name => existsb (classEq q name) (Dom.classList e)
  | AttrEq attr value =>
      match Dom.getAttribute e attr with
      | Some v => eqb v value
      | None => false
      end
  | Pseudo _ => false
  end.

Definition matches (q : bool) (sel : list (list simple)) (e : node) : bool :=
  Dom.isElement e && existsb (forallb (matchesSimple q e)) sel.

(** Matches among [scope] (already in tree order). *)
Definition selectAll (q : bool) (scope : list node) (sel : list (list simple))
  : result (list node) :=
  if valid sel then Ok (List.filter (matches q sel) scope) else Err SyntaxError.

Definition selectFirst (q : bool) (scope : list node) (sel : list (list simple))
  : result (option node) :=
  l ← selectAll q scope sel; mret (head l).

Definition tag (s : string) : list (list simple) := [[Tag (js s)]].
Definition class (s : string) : list (list simple) := [[Class (js s)]].

End Selector.

(** [Document.querySelector], [Document.querySelectorAll] *)
Definition docQuerySelector (d : document) sel : result (option node) :=
  Selector.selectFirst (quirks d) (Dom.documentElements d) sel.
Definition docQuerySelectorAll (d : document) sel : result (list node) :=
  Selector.selectAll (quirks d) (Dom.documentElements d) sel.

(** [Element.querySelector], [Element.querySelectorAll]; [q] is the mode
    of the element's document. *)
Definition querySelector (q : bool) (e : node) sel : result (option node) :=
  Selector.selectFirst q (Dom.descendants e) sel.
Definition querySelectorAll (q : bool) (e : node) sel : result (list node) :=
  Selector.selectAll q (Dom.descendants e) sel.

(** ** Feed parser (src/services/rssParser.ts) *)

Record RSSItem : Type := mkRSSItem {
  item_title : list N;
  item_link : list N;
  item_description : list N;
  item_pubDate : list N;
  item_author : list N;
  item_guid : list N
}.

Record RSSFeed : Type := mkRSSFeed {
  feed_title : list N;
  feed_description : list N;
  feed_link : list N;
  items : list RSSItem
}.

Module RSSParser.

(** [element?.textContent?.trim() || ''] *)
Definition getTextContent (parent : node) (tagName : list (list simple))
  : result (list N) :=
  element ← querySelector false parent tagName;
  mret (match element with
        | Some e => trim (Dom.textContent e)
        | None => []
        end).

(** [element?.getAttribute(attributeName) || ''] *)
Definition getAttributeContent (parent : node) (tagName : list (list simple))
    (attributeName : list N) : result (list N) :=
  element ← querySelector false parent tagName;
  mret (match element with
        | Some e => Dom.orEmpty (Dom.getAttribute e attributeName)
        | None => []
        end).

(** The selector ['dc:creator'] of the source. *)
Definition dc_creator : list (list simple) :=
  [[Tag (js "dc"); Pseudo (js "creator")]].

(** The selector ['item, entry'] of the source. *)
Definition item_entry : list (list simple) :=
  [[Tag (js "item")]; [Tag (js "entry")]].

(** The body of the arrow function mapped over the entries; the properties
    are evaluated in the order they are written. *)
Definition parseItem (item : node) : result RSSItem :=
  title ← getTextContent item (Selector.tag "title") ||| lit "Untitled";
  link ← getTextContent item (Selector.tag "link")
         ||| getAttributeContent item (Selector.tag "link") (js "href")
         ||| lit "";
  description ← getTextContent item (Selector.tag "description")
                ||| getTextContent item (Selector.tag "summary")
                ||| getTextContent item (Selector.tag "content")
                ||| lit "";
  pubDate ← getTextContent item (Selector.tag "pubDate")
            ||| getTextContent item (Selector.tag "published")
            ||| getTextContent item (Selector.tag "updated")
            ||| lit "";
  author ← getTextContent item (Selector.tag "author")
           ||| getTextContent item dc_creator
           ||| lit "";
  guid ← getTextContent item (Selector.tag "guid")
         ||| getTextContent item (Selector.tag "id")
         ||| lit "";
  mret (mkRSSItem title link description pubDate author guid).

(** [parseRSS], from the document that [DOMParser] built for [xmlText]. *)
Definition parseRSS (doc : document) : result RSSFeed :=
  rss ← docQuerySelector doc (Selector.tag "channel");
  channel ← match rss with
            | Some _ => mret rss
            | None => docQuerySelector doc (Selector.tag "feed")
            end;
  match channel with
  | None => Err MalformedFeed
  | Some channel =>
      title ← getTextContent channel (Selector.tag "title") ||| lit "Unknown Feed";
      description ← getTextContent channel (Selector.tag "description")
                    ||| getTextContent channel (Selector.tag "subtitle")
                    ||| lit "";
      link ← getTextContent channel (Selector.tag "link") ||| lit "";
      entries ← docQuerySelectorAll doc item_entry;
      items ← mapM parseItem entries;
      mret (mkRSSFeed title description link items)
  end.

End RSSParser.


(** ** The host: clock and network *)

(** The JSON body of the chat-completion request.  [temperature] is kept
    in tenths ([7] for [0.7]). *)
Record ChatBody : Type := mkChatBody {
  body_model : list N;
  body_messages : list (list N * list N);      (* role, content *)
  body_temperature_tenths : N;
  body_max_tokens : N
}.

Record Request : Type := mkRequest {
  req_url : list N;
  req_method : list N;
  req_headers : list (list N * list N);
  req_body : ChatBody
}.

(** What the service reads from a response: [response.ok],
    [response.statusText] and the body.  [resp_json = None] when the body
    is not JSON ([response.json()] is rejected); otherwise it holds
    [data.choices], [None] if undefined, each choice reduced to the path
    [?.message?.content] ([None] where a property is undefined). *)
Record Response : Type := mkResponse {
  resp_ok : bool;
  resp_statusText : list N;
  resp_json : option (option (list (option (option (list N)))))
}.

(** [now] is the time value the clock shows (milliseconds since the
    epoch), [origin] is [window.location.origin], [sent] the requests
    issued so far, oldest first. *)
Record World : Type := mkWorld {
  now : Z;
  origin : list N;
  sent : list Request
}.

Module Host.

(** [fetch]: the request goes out, the network answers with a response or
    the promise is rejected. *)
Definition fetch (network : Request -> option Response) (r : Request) (w : World)
  : result Response * World :=
  (match network r with Some resp => Ok resp | None => Err NetworkError end,
   mkWorld (now w) (origin w) (sent w ++ [r])).

Local Open Scope Z_scope.

Definition msPerDay : Z := 86400000.

(** Civil date of a day number counted from 1970-01-01 (proleptic
    Gregorian calendar): year, month, day. *)
Definition civilFromDays (days : Z) : Z * Z * Z :=
  let z := days + 719468 in
  let era := z / 146097 in
  let doe := z - era * 146097 in
  let yoe := (doe - doe / 1460 + doe / 36524 - doe / 146096) / 365 in
  let doy := doe - (365 * yoe + yoe / 4 - yoe / 100) in
  let mp := (5 * doy + 2) / 153 in
  let d := doy - (153 * mp + 2) / 5 + 1 in
  let m := if mp <? 10 then mp + 3 else mp - 9 in
  let y := yoe + era * 400 + (if m <=? 2 then 1 else 0) in
  (y, m, d).

Definition pad (width : nat) (z : Z) : list N := padStart0 width (ofN (Z.to_N z)).

Definition isoYear (y : Z) : list N :=
  if (0 <=? y) && (y <=? 9999) then pad 4 y
  else if y <? 0 then js "-" ++ pad 6 (- y)
  else js "+" ++ pad 6 y.

(** [Date.prototype.toISOString] of the date with time value [t]. *)
Definition toISOString (t : Z) : list N :=
  let '(y, m, d) := civilFromDays (t / msPerDay) in
  let ms := t mod msPerDay in
  isoYear y ++ js "-" ++ pad 2 m ++ js "-" ++ pad 2 d ++ js "T"
  ++ pad 2 (ms / 3600000) ++ js ":" ++ pad 2 (ms / 60000 mod 60) ++ js ":"
  ++ pad 2 (ms / 1000 mod 60) ++ js "." ++ pad 3 (ms mod 1000) ++ js "Z".

End Host.

(** ** Markdown converter (src/services/urlToMarkdown.ts) *)

Record Metadata : Type := mkMetadata {
  meta_title : list N;
  meta_author : list N;
  meta_description : list N;
  meta_url : list N;
  meta_extractedAt : list N
}.

Record Conversion : Type := mkConversion {
  markdown : list N;
  title : list N;
  metadata : Metadata
}.

Module URLToMarkdownConverter.

Definition elementsToRemove : list (list (list simple)) :=
  [Selector.tag "script"; Selector.tag "style"; Selector.tag "nav";
   Selector.tag "header"; Selector.tag "footer";
   Selector.class "advertisement"; Selector.class "sidebar"].

Definition contentSelectors : list (list (list simple)) :=
  [Selector.tag "article"; Selector.tag "main"; Selector.class "content";
   Selector.class "post"; Selector.class "entry"].

(** The tree without the elements that [gone] holds for (and so without
    their subtrees). *)
Fixpoint prune (gone : node -> bool) (n : node) : node :=
  match n with
  | Element t a cs =>
      Element t a
        ((fix go (l : list node) : list node :=
            match l with
            | [] => []
            | c :: l' => if gone c then go l' else prune gone c :: go l'
            end) cs)
  | _ => n
  end.

Definition pruneAll (gone : node -> bool) (l : list node) : list node :=
  List.map (prune gone) (List.filter (fun c => negb (gone c)) l).

(** [doc.querySelectorAll(selector).forEach(el => el.remove())]: every
    element the selector matches is detached from its parent. *)
Definition removeMatching (doc : document) (selector : list (list simple))
  : result document :=
  _ ← docQuerySelectorAll doc selector;
  mret (Document (quirks doc)
          (pruneAll (Selector.matches (quirks doc) selector) (nodes doc))).

(** [elementsToRemove.forEach(...)] *)
Fixpoint removeEach (doc : document) (selectors : list (list (list simple)))
  : result document :=
  match selectors with
  | [] => mret doc
  | selector :: rest => doc' ← removeMatching doc selector; removeEach doc' rest
  end.

(** The [for (const selector of contentSelectors)] loop with its [break]. *)
Fixpoint firstMatch (doc : document) (selectors : list (list (list simple)))
  : result (option node) :=
  match selectors with
  | [] => mret None
  | selector :: rest =>
      found ← docQuerySelector doc selector;
      match found with
      | Some e => mret (Some e)
      | None => firstMatch doc rest
      end
  end.

(** [document.body]: the first [body] or [frameset] child of the [html]
    document element, or null. *)
Definition documentElement (doc : document) : option node :=
  List.find Dom.isElement (nodes doc).

Definition body (doc : document) : option node :=
  match documentElement doc with
  | Some html =>
      if eqb (Dom.tagOf html) (js "html")
      then List.find (fun c => Dom.isElement c &&
                        (eqb (Dom.tagOf c) (js "body")
                         || eqb (Dom.tagOf c) (js "frameset")))
                     (Dom.childNodes html)
      else None
  | None => None
  end.

(** The content root: [mainContent] after the loop and the fallback. *)
Definition mainContent (doc : document) : result (option node) :=
  found ← firstMatch doc contentSelectors;
  mret (match found with
        | Some e => Some e
        | None => body doc
        end).

(** One entry of the list per [li] descendant, [index] counted from 0. *)
Definition listItem (marker : list N) (index : nat) (item : node) : list N :=
  let itemMarker :=
    if eqb marker (js "1.") then ofN (N.of_nat (index + 1)) ++ js "." else marker in
  itemMarker ++ js " " ++ Dom.textContent item ++ nl.

Definition processListItems (q : bool) (listElement : node) (marker : list N)
  : result (list N) :=
  items ← querySelectorAll q listElement (Selector.tag "li");
  mret (concat (imap (listItem marker) items)).

Definition heading (level : nat) (el : node) : list N :=
  repeat 35 level ++ js " " ++ Dom.textContent el ++ nl ++ nl.

(** [el.tagName.toLowerCase() === name] and [el.getAttribute(name) || ''] *)
Definition tagNameIs (el : node) (name : string) : bool :=
  eqb (toLowerCase (Dom.tagOf el)) (js name).

Definition attrOrEmpty (el : node) (name : string) : list N :=
  Dom.orEmpty (Dom.getAttribute el (js name)).

(** The [switch (tagName)] for the cases that do not recurse; [None] is
    the [default] branch. *)
Definition convertElement (q : bool) (el : node) : option (result (list N)) :=
  let text := Dom.textContent el in
  if tagNameIs el "h1" then Some (mret (heading 1 el))
  else if tagNameIs el "h2" then Some (mret (heading 2 el))
  else if tagNameIs el "h3" then Some (mret (heading 3 el))
  else if tagNameIs el "h4" then Some (mret (heading 4 el))
  else if tagNameIs el "h5" then Some (mret (heading 5 el))
  else if tagNameIs el "h6" then Some (mret (heading 6 el))
  else if tagNameIs el "p" then Some (mret (text ++ nl ++ nl))
  else if tagNameIs el "strong" || tagNameIs el "b" then Some (mret (js "**" ++ text ++ js "**"))
  else if tagNameIs el "em" || tagNameIs el "i" then Some (mret (js "*" ++ text ++ js "*"))
  else if tagNameIs el "a" then
    Some (mret (js "[" ++ text ++ js "](" ++ attrOrEmpty el "href" ++ js ")"))
  else if tagNameIs el "img" then
    Some (mret (js "![" ++ attrOrEmpty el "alt" ++ js "](" ++ attrOrEmpty el "src" ++ js ")" ++ nl ++ nl))
  else if tagNameIs el "ul" then
    Some (items ← processListItems q el (js "-"); mret (items ++ nl))
  else if tagNameIs el "ol" then
    Some (items ← processListItems q el (js "1."); mret (items ++ nl))
  else if tagNameIs el "blockquote" then Some (mret (js "> " ++ text ++ nl ++ nl))
  else if tagNameIs el "code" then Some (mret (js "`" ++ text ++ js "`"))
  else if tagNameIs el "pre" then
    Some (mret (js "```" ++ nl ++ text ++ nl ++ js "```" ++ nl ++ nl))
  else None.

(** [htmlToMarkdown]: the loop over [element.childNodes]. *)
Fixpoint htmlToMarkdown (q : bool) (element : node) : result (list N) :=
  match element with
  | Element _ _ cs =>
      (fix loop (l : list node) : result (list N) :=
         match l with
         | [] => mret []
         | child :: rest =>
             piece ← match child with
                     | Text d => mret d
                     | Comment _ => mret []
                     | Element _ _ _ =>
                         match convertElement q child with
                         | Some r => r
                         | None => htmlToMarkdown q child
                         end
                     end;
             more ← loop rest;
             mret (piece ++ more)
         end) cs
  | _ => mret []
  end.

(** [x?.textContent || dflt] and [x?.getAttribute('content') || ''] *)
Definition textOr (o : option node) (dflt : list N) : list N :=
  match o with
  | Some e => if truthy (Dom.textContent e) then Dom.textContent e else dflt
  | None => dflt
  end.

Definition contentOf (o : option node) : list N :=
  match o with
  | Some e => Dom.orEmpty (Dom.getAttribute e (js "content"))
  | None => []
  end.

Definition metaNamed (name : string) : list (list simple) :=
  [[Tag (js "meta"); AttrEq (js "name") (js name)]].

(** [convertHTMLToMarkdown], from the document that [DOMParser] built for
    [html]; [htmlToMarkdown(null)] is a [TypeError]. *)
Definition convertHTMLToMarkdown (doc : document) (originalUrl : list N)
    (w : World) : result Conversion * World :=
  (titleEl ← docQuerySelector doc (Selector.tag "title");
   let title := textOr titleEl (js "Untitled Article") in
   authorEl ← docQuerySelector doc (metaNamed "author");
   let author := contentOf authorEl in
   descriptionEl ← docQuerySelector doc (metaNamed "description");
   let description := contentOf descriptionEl in
   doc' ← removeEach doc elementsToRemove;
   root ← mainContent doc';
   markdown ← match root with
              | Some el => htmlToMarkdown (quirks doc') el
              | None => Err TypeError
              end;
   let metadata :=
     mkMetadata title author description originalUrl (Host.toISOString (now w)) in
   mret (mkConversion markdown title metadata),
   w).

End URLToMarkdownConverter.

(** ** Article store (src/services/storageService.ts) *)

Record Highlight : Type := mkHighlight {
  hl_id : list N;
  hl_articleId : list N;
  hl_text : list N;
  hl_color : list N;
  hl_note : option (list N);
  hl_position : Z
}.

(** [Omit<Article, 'id'>]; the numbers of the records are time values and
    counts, kept as integers. *)
Record ArticleFields : Type := mkArticleFields {
  feedId : option (list N);
  art_title : list N;
  art_author : option (list N);
  publishDate : Z;
  content : list N;
  summary : option (list N);
  art_url : list N;
  isRead : bool;
  tags : list (list N);
  notes : option (list N);
  highlights : option (list Highlight)
}.

(** [Article]: [{ ...article, id }] *)
Record Article : Type := mkArticle {
  art_id : list N;
  art_fields : ArticleFields
}.

(** [Omit<Feed, 'id'>] and [Feed] *)
Record FeedFields : Type := mkFeedFields {
  fd_url : list N;
  fd_title : list N;
  fd_description : list N;
  category : list N;
  lastUpdated : Z;
  updateInterval : Z;
  favicon : option (list N)
}.

Record Feed : Type := mkFeed {
  fd_id : list N;
  fd_fields : FeedFields
}.

(** The database [ReadLaterApp].  The object stores [articles] and [feeds]
    have the key path [id]: a record is filed under its own [id], so a store
    is a finite map from the key to the rest of the record.  (The stores
    [highlights] and [settings] are created by [init] and used by no
    method.)  The database outlives the service object; [opened] says
    whether [this.db] holds a connection. *)
Record Database : Type := mkDatabase {
  articles : gmap (list N) ArticleFields;
  feeds : gmap (list N) FeedFields
}.

Record Storage : Type := mkStorage {
  opened : bool;
  database : Database
}.

Module StorageService.

(** The template [`${prefix}${Date.now()}_${Math.random().toString(36).substr(2, 9)}`];
    [random36] is the string [Math.random().toString(36)]. *)
Definition newId (prefix : string) (now : Z) (random36 : list N) : list N :=
  js prefix ++ ofZ now ++ js "_" ++ substr 2 9 random36.

(** [init]: [openOk] tells whether the open request succeeds; the stores
    are created only where they do not exist, so the data stays. *)
Definition init (openOk : bool) (st : Storage) : result unit * Storage :=
  if openOk then (Ok tt, mkStorage true (database st))
  else (Err (Error (js "open failed")), st).

(** [store.getAll()].  IndexedDB lists the records by ascending key; the
    model fixes the records, not their order. *)
Definition allArticles (db : Database) : list Article :=
  List.map (fun kv => mkArticle (fst kv) (snd kv)) (map_to_list (articles db)).

Definition allFeeds (db : Database) : list Feed :=
  List.map (fun kv => mkFeed (fst kv) (snd kv)) (map_to_list (feeds db)).

(** [saveArticle]: [store.add] fails with a [ConstraintError] when the key
    is taken. *)
Definition saveArticle (article : ArticleFields) (now : Z) (random36 : list N)
    (st : Storage) : result (list N) * Storage :=
  let id := newId "article_" now random36 in
  if opened st then
    match articles (database st) !! id with
    | Some _ => (Err ConstraintError, st)
    | None =>
        (Ok id,
         mkStorage true
           (mkDatabase (<[id := article]> (articles (database st)))
                       (feeds (database st))))
    end
  else (Err NotInitialized, st).

Definition getArticles (st : Storage) : result (list Article) * Storage :=
  if opened st then (Ok (allArticles (database st)), st)
  else (Err NotInitialized, st).

(** [updateArticle]: [store.put] inserts or overwrites. *)
Definition updateArticle (article : Article) (st : Storage)
  : result unit * Storage :=
  if opened st then
    (Ok tt,
     mkStorage true
       (mkDatabase (<[art_id article := art_fields article]> (articles (database st)))
                   (feeds (database st))))
  else (Err NotInitialized, st).

Definition deleteArticle (id : list N) (st : Storage) : result unit * Storage :=
  if opened st then
    (Ok tt,
     mkStorage true
       (mkDatabase (delete id (articles (database st))) (feeds (database st))))
  else (Err NotInitialized, st).

Definition saveFeed (feed : FeedFields) (now : Z) (random36 : list N)
    (st : Storage) : result (list N) * Storage :=
  let id := newId "feed_" now random36 in
  if opened st then
    match feeds (database st) !! id with
    | Some _ => (Err ConstraintError, st)
    | None =>
        (Ok id,
         mkStorage true
           (mkDatabase (articles (database st))
                       (<[id := feed]> (feeds (database st)))))
    end
  else (Err NotInitialized, st).

Definition getFeeds (st : Storage) : result (list Feed) * Storage :=
  if opened st then (Ok (allFeeds (database st)), st)
  else (Err NotInitialized, st).

(** The predicate of the [filter] in [searchArticles];
    [article.summary?.toLowerCase().includes(q)] is undefined, hence
    falsy, for an article without summary. *)
Definition matchesQuery (lowercaseQuery : list N) (article : Article) : bool :=
  let a := art_fields article in
  includes (toLowerCase (art_title a)) lowercaseQuery
  || includes (toLowerCase (content a)) lowercaseQuery
  || match summary a with
     | Some s => includes (toLowerCase s) lowercaseQuery
     | None => false
     end
  || existsb (fun tag => includes (toLowerCase tag) lowercaseQuery) (tags a).

Definition searchArticles (query : list N) (st : Storage)
  : result (list Article) * Storage :=
  match getArticles st with
  | (Ok articles, st') =>
      let lowercaseQuery := toLowerCase query in
      (Ok (List.filter (matchesQuery lowercaseQuery) articles), st')
  | (Err e, st') => (Err e, st')
  end.

End StorageService.

(** ** Summarizer (src/services/aiSummarizer.ts and its later revision) *)

Record SummarizeRequest : Type := mkSummarizeRequest {
  sr_content : list N;
  apiKey : list N;
  sr_model : list N;
  prompt : option (list N)       (* [prompt?: string], later revision only *)
}.

Module AISummarizer.

Definition DEFAULT_PROMPT : list N :=
  js "Please provide a comprehensive summary of the following article. Focus on the main points, key insights, and important details. Make the summary clear and well-structured:"
  ++ nl ++ nl.

Definition endpoint : list N := js "https://openrouter.ai/api/v1/chat/completions".

Definition chatRequest (w : World) (apiKey model message : list N) : Request :=
  mkRequest endpoint (js "POST")
    [(js "Authorization", js "Bearer " ++ apiKey);
     (js "Content-Type", js "application/json");
     (js "HTTP-Referer", origin w);
     (js "X-Title", js "ReadLater App")]
    (mkChatBody model [(js "user", message)] 7 1000).

Section Network.

(** How the network answers a request: a response, or nothing when the
    request fails. *)
Variable network : Request -> option Response.

(** Everything after the credential check: the request, the status check
    and [data.choices[0]?.message?.content || 'No summary generated']. *)
Definition complete (r : Request) (w : World) : result (list N) * World :=
  match Host.fetch network r w with
  | (Err e, w') => (Err e, w')
  | (Ok response, w') =>
      if negb (resp_ok response)
      then (Err (TransportFailure (resp_statusText response)), w')
      else
        match resp_json response with
        | None => (Err SyntaxError, w')
        | Some None => (Err TypeError, w')
        | Some (Some choices) =>
            (Ok (match head choices with
                 | Some (Some (Some text)) =>
                     if truthy text then text else js "No summary generated"
                 | _ => js "No summary generated"
                 end), w')
        end
  end.

(** [summarizeText] of src/services/aiSummarizer.ts *)
Definition summarizeText (req : SummarizeRequest) (w : World)
  : result (list N) * World :=
  if negb (truthy (apiKey req)) then (Err MissingCredential, w)
  else
    complete
      (chatRequest w (apiKey req) (sr_model req) (DEFAULT_PROMPT ++ sr_content req)) w.

(** [summarizeText] of the revision with selectable prompts
    ([prompt || this.DEFAULT_PROMPT]) *)
Definition summarizeTextWithPrompt (req : SummarizeRequest) (w : World)
  : result (list N) * World :=
  if negb (truthy (apiKey req)) then (Err MissingCredential, w)
  else
    let promptToUse :=
      match prompt req with
      | Some p => if truthy p then p else DEFAULT_PROMPT
      | None => DEFAULT_PROMPT
      end in
    complete
      (chatRequest w (apiKey req) (sr_model req) (promptToUse ++ sr_content req)) w.

End Network.

End AISummarizer.

(** ** Sample inputs *)

Module Samples.

Definition el (t : string) (cs : list node) : node := Element (js t) [] cs.
Definition txt (s : string) : node := Text (js s).

(** [<rss><channel><title>T</title><item><title>A</title></item></channel></rss>] *)
Definition rss_no_author : document :=
  Document false
    [el "rss" [el "channel" [el "title" [txt "T"];
                              el "item" [el "title" [txt "A"]]]]].

(** The same feed, each item carrying an [author]. *)
Definition rss_with_author : document :=
  Document false
    [el "rss" [el "channel"
       [el "title" [txt "T"];
        el "item" [el "title" [txt " A "]; el "author" [txt "Ann"];
                   el "summary" [txt "s"]; el "id" [txt "g1"]];
        el "item" [el "author" [txt "Bob"]; el "description" [];
                   el "summary" [txt "t"]]]]].

(** An [item] that is a sibling of the [channel], not a descendant. *)
Definition rss_item_outside : document :=
  Document false
    [el "rss" [el "channel" [el "title" [txt "T"]];
               el "item" [el "title" [txt "A"]; el "author" [txt "Ann"]]]].

(** A document with neither container. *)
Definition not_a_feed : document :=
  Document false [el "html" [el "body" [el "item" [txt "x"]]]].

(** The HTML parser's document for [<ol><li>A</li><li>B</li></ol>] (no
    doctype, so quirks mode), and the same with [ul]. *)
Definition ol_AB : node := el "ol" [el "li" [txt "A"]; el "li" [txt "B"]].
Definition ul_AB : node := el "ul" [el "li" [txt "A"]; el "li" [txt "B"]].

Definition page (content : list node) : document :=
  Document true [el "html" [el "head" []; el "body" content]].

Definition ol_doc : document := page [ol_AB].
Definition ul_doc : document := page [ul_AB].

(** [<aside class="sidebar"><article>teaser</article></aside><main><p>Story</p></main>] *)
Definition story : node := el "main" [el "p" [txt "Story"]].
Definition sidebar_doc : document :=
  page [Element (js "aside") [(js "class", js "sidebar")] [el "article" [txt "teaser"]];
        story].

Definition world0 : World := mkWorld 0 (js "http://localhost:8080") [].
Definition world1 : World := mkWorld 1 (js "http://localhost:8080") [].

(** A document whose [main] precedes its [article]. *)
Definition piece : node := el "article" [el "p" [txt "Piece"]].
Definition article_doc : document := page [story; piece].

Definition note (t : string) : ArticleFields :=
  mkArticleFields None (js t) None 0%Z (js "body") None (js "https://example.com")
                  false [] None None.

Definition news : FeedFields :=
  mkFeedFields (js "https://example.com/rss") (js "News") [] (js "tech") 0%Z 60%Z None.

(** A ready store without records, and a database that holds one article
    while the service has not been initialised. *)
Definition ready_empty : Storage := mkStorage true (mkDatabase ∅ ∅).
Definition closed_with_data : Storage :=
  mkStorage false (mkDatabase {[ js "article_1_abc" := note "kept" ]} ∅).
Definition ready_with_data : Storage :=
  mkStorage true (mkDatabase {[ js "article_1_abc" := note "kept" ]} ∅).

(** [Math.random().toString(36)] for one draw. *)
Definition draw : list N := js "0.4fzyo82mvyr".

Definition request (key : string) : SummarizeRequest :=
  mkSummarizeRequest (js "text") (js key) (js "openai/gpt-4") None.

Definition server (r : Request) : option Response :=
  Some (mkResponse true (js "OK") (Some (Some [Some (Some (js "short"))]))).

End Samples.

(** ** Vocabulary of the properties *)

(** [within e n]: [e] is [n] or lies below [n] in the tree. *)
Inductive within (e : node) : node -> Prop :=
| within_self : within e e
| within_child t a cs c : c ∈ cs -> within e c -> within e (Element t a cs).

(** [e] is an element of the document. *)
Definition inDocument (e : node) (d : document) : Prop :=
  Dom.isElement e = true /\ exists n, n ∈ nodes d /\ within e n.

(** An element called [name] is present in the document. *)
Definition present (name : string) (d : document) : Prop :=
  exists e, inDocument e d /\ Dom.tagOf e = js name.

Definition hasTag (name : string) (e : node) : bool :=
  Dom.isElement e && eqb (js name) (Dom.tagOf e).

Definition hasClass (q : bool) (name : string) (e : node) : bool :=
  Dom.isElement e && existsb (Selector.classEq q (js name)) (Dom.classList e).

(** The entry-like elements: [item] and [entry]. *)
Definition isEntry (e : node) : bool := hasTag "item" e || hasTag "entry" e.

(** First non-empty string of a list of candidates, else the default. *)
Fixpoint firstNonEmpty (candidates : list (list N)) (dflt : list N) : list N :=
  match candidates with
  | [] => dflt
  | c :: rest => if truthy c then c else firstNonEmpty rest dflt
  end.

(** Trimmed text of the first descendant of [item] called [name], the
    empty string if there is none. *)
Definition fieldText (item : node) (name : string) : list N :=
  match List.find (hasTag name) (Dom.descendants item) with
  | Some e => trim (Dom.textContent e)
  | None => []
  end.

(** [href] of the first descendant called [link]. *)
Definition linkHref (item : node) : list N :=
  match List.find (hasTag "link") (Dom.descendants item) with
  | Some e => Dom.orEmpty (Dom.getAttribute e (js "href"))
  | None => []
  end.

(** What an item evaluates to when the exception is not raised. *)
Definition itemOf (item : node) : RSSItem :=
  mkRSSItem
    (firstNonEmpty [fieldText item "title"] (js "Untitled"))
    (firstNonEmpty [fieldText item "link"; linkHref item] [])
    (firstNonEmpty [fieldText item "description"; fieldText item "summary";
                    fieldText item "content"] [])
    (firstNonEmpty [fieldText item "pubDate"; fieldText item "published";
                    fieldText item "updated"] [])
    (fieldText item "author")
    (firstNonEmpty [fieldText item "guid"; fieldText item "id"] []).

(** The container [parseRSS] locates: the first [channel], else the first
    [feed]. *)
Definition container (doc : document) : option node :=
  match List.find (hasTag "channel") (Dom.documentElements doc) with
  | Some c => Some c
  | None => List.find (hasTag "feed") (Dom.documentElements doc)
  end.

(** The entry-like elements of the whole document, in tree order. *)
Definition entries (doc : document) : list node :=
  List.filter isEntry (Dom.documentElements doc).

Definition feedOf (channel : node) (its : list RSSItem) : RSSFeed :=
  mkRSSFeed
    (firstNonEmpty [fieldText channel "title"] (js "Unknown Feed"))
    (firstNonEmpty [fieldText channel "description"; fieldText channel "subtitle"] [])
    (firstNonEmpty [fieldText channel "link"] [])
    its.

(** The document after the removal pass of [convertHTMLToMarkdown]. *)
Definition stripOne (doc : document) (selector : list (list simple)) : document :=
  Document (quirks doc)
    (URLToMarkdownConverter.pruneAll (Selector.matches (quirks doc) selector) (nodes doc)).

Definition stripped (doc : document) : document :=
  foldl stripOne doc URLToMarkdownConverter.elementsToRemove.

(** The content root as the specification words it: the first element, in
    document order, of the first kind that occurs, the kinds taken in the
    order [article], [main], [.content], [.post], [.entry]; the body when
    none occurs. *)
Definition firstOf (p : node -> bool) (doc : document) : option node :=
  List.find p (Dom.documentElements doc).

Fixpoint firstByPriority (kinds : list (node -> bool)) (doc : document)
  : option node :=
  match kinds with
  | [] => None
  | kind :: rest =>
      match firstOf kind doc with
      | Some e => Some e
      | None => firstByPriority rest doc
      end
  end.

Definition priorityRoot (doc : document) : option node :=
  match firstByPriority
          [hasTag "article"; hasTag "main"; hasClass (quirks doc) "content";
           hasClass (quirks doc) "post"; hasClass (quirks doc) "entry"] doc with
  | Some e => Some e
  | None => URLToMarkdownConverter.body doc
  end.

(** The content root [convertHTMLToMarkdown] converts: removal pass, then
    selection. *)
Definition contentRoot (doc : document) : result (option node) :=
  doc' ← URLToMarkdownConverter.removeEach doc URLToMarkdownConverter.elementsToRemove;
  URLToMarkdownConverter.mainContent doc'.

(** The [li] descendants of a list element, in tree order. *)
Definition listItems (listElement : node) : list node :=
  List.filter (hasTag "li") (Dom.descendants listElement).

(** [e] is the pruned form of an element of [scope] for which [gone] does
    not hold. *)
Definition prunedFrom (gone : node -> bool) (scope : list node) (e : node) : Prop :=
  exists e0, e0 ∈ scope /\ gone e0 = false /\ e = URLToMarkdownConverter.prune gone e0.

(** Closes a goal [prunedFrom gone (l1 ++ l2) e] with the witness [e0],
    found in the part of the scope that [side] selects ([left], [right]). *)
Tactic Notation "pruned_from" constr(e0) tactic(side) :=
  exists e0; split; [apply elem_of_app; side; assumption | split; [assumption | reflexivity]].

(** ** Vocabulary of the further properties *)



Module Cases.

Definition kept : Article := mkArticle (js "article_1_abc") (Samples.note "kept").
Definition edited : Article := mkArticle (js "article_1_abc") (Samples.note "edited").

End Cases.

(** ** Feed parser: [fetchAndParse] (src/services/rssParser.ts) *)

Module RSSFetch.

(** [getDemoFeed]: [t1], [t2], [t3] are the three clock readings, in the
    order the object literal takes them. *)
Definition getDemoFeed (url : list N) (t1 t2 t3 : Z) : RSSFeed :=
  mkRSSFeed
    (js "Demo RSS Feed")
    (js "A demonstration RSS feed with sample articles")
    url
    [mkRSSItem
       (js "Getting Started with RSS Readers")
       (js "https://example.com/article1")
       (js "Learn how to effectively use RSS readers to stay up-to-date with your favorite content sources. This comprehensive guide covers everything from basics to advanced features.")
       (Host.toISOString t1)
       (js "Tech Writer")
       (js "article-1");
     mkRSSItem
       (js "The Future of Content Aggregation")
       (js "https://example.com/article2")
       (js "Exploring how content aggregation is evolving in the modern web. From RSS to AI-powered curation, discover what's next in information management.")
       (Host.toISOString (t2 - 86400000))
       (js "Content Strategist")
       (js "article-2");
     mkRSSItem
       (js "Building Your Personal Knowledge Base")
       (js "https://example.com/article3")
       (js "Tips and strategies for creating and maintaining a personal knowledge management system that grows with you over time.")
       (Host.toISOString (t3 - 172800000))
       (js "Productivity Expert")
       (js "article-3")].

Section Parser.

(** [DOMParser.parseFromString(text, 'text/xml')] *)
Variable parseFromString : list N -> document.

(** [fetchAndParse]: [response] is the text of the response, [None] when
    [fetch] or [response.text()] is rejected; any exception of the [try]
    block leads to the demo feed. *)
Definition fetchAndParse (response : option (list N)) (url : list N)
    (t1 t2 t3 : Z) : RSSFeed :=
  match response with
  | Some text =>
      match RSSParser.parseRSS (parseFromString text) with
      | Ok feed => feed
      | Err _ => getDemoFeed url t1 t2 t3
      end
  | None => getDemoFeed url t1 t2 t3
  end.

End Parser.

End RSSFetch.

(** No white space at either end of the string. *)
Definition noOuterSpace (s : list N) : Prop :=
  (forall c rest, s = c :: rest -> isWhiteSpace c = false)
  /\ (forall front c, s = front ++ [c] -> isWhiteSpace c = false).

(** The text fields of an item that [parseRSS] trims. *)
Definition itemTexts (it : RSSItem) : list (list N) :=
  [item_title it; item_description it; item_pubDate it; item_author it; item_guid it].

(** ** Markdown converter: [convertURL] (src/services/urlToMarkdown.ts) *)

Module MarkdownFetch.



Section Host.

(** [Date.prototype.toLocaleDateString], which depends on the locale of
    the host, and [DOMParser.parseFromString(html, 'text/html')]. *)
Variable toLocaleDateString : Z -> list N.
Variable parseFromString : list N -> document.



End Host.

End MarkdownFetch.

(** The contribution of one child node to the markdown, and the loop of
    [htmlToMarkdown] over a list of child nodes. *)
Definition pieceOf (q : bool) (child : node) : result (list N) :=
  match child with
  | Text d => mret d
  | Comment _ => mret []
  | Element _ _ _ =>
      match URLToMarkdownConverter.convertElement q child with
      | Some r => r
      | None => URLToMarkdownConverter.htmlToMarkdown q child
      end
  end.

Fixpoint childrenMarkdown (q : bool) (l : list node) : result (list N) :=
  match l with
  | [] => mret []
  | child :: rest =>
      piece ← pieceOf q child;
      more ← childrenMarkdown q rest;
      mret (piece ++ more)
  end.

(** The element names with an entry in the conversion table. *)
Definition tableTags : list string :=
  ["h1"; "h2"; "h3"; "h4"; "h5"; "h6"; "p"; "strong"; "b"; "em"; "i"; "a";
   "img"; "ul"; "ol"; "blockquote"; "code"; "pre"]%string.

(** An element the table has no entry for. *)
Definition untabled (el : node) : Prop :=
  Forall (fun name => URLToMarkdownConverter.tagNameIs el name = false) tableTags.

Module Pages.

(** [<body class="sidebar"><p>x</p></body>]: the removal pass takes the body. *)
Definition body_is_sidebar : document :=
  Document true
    [Samples.el "html"
       [Samples.el "head" [];
        Element (js "body") [(js "class", js "sidebar")]
          [Samples.el "p" [Samples.txt "x"]]]].

End Pages.

(** ** Summarizer settings and prompts (later revision of aiSummarizer.ts) *)

Record CustomPrompt : Type := mkPrompt {
  prompt_id : list N;
  prompt_name : list N;
  prompt_content : list N
}.

Module Settings.

(** [localStorage] as a finite map from keys to values; [setItem] is taken
    within the quota of the host, where it does not throw. *)
Definition setItem (key : string) (value : list N) (ls : gmap (list N) (list N))
  : gmap (list N) (list N) :=
  <[js key := value]> ls.

(** [localStorage.getItem(key) || dflt] *)
Definition getItemOr (key : string) (dflt : list N) (ls : gmap (list N) (list N))
  : list N :=
  match ls !! js key with
  | Some v => if truthy v then v else dflt
  | None => dflt
  end.

Definition getAvailableModels : list (list N * list N) :=
  [(js "anthropic/claude-3-haiku", js "Claude 3 Haiku");
   (js "openai/gpt-3.5-turbo", js "GPT-3.5 Turbo");
   (js "openai/gpt-4", js "GPT-4");
   (js "meta-llama/llama-2-70b-chat", js "Llama 2 70B")].

Definition saveApiKey (apiKey : list N) := setItem "openrouter_api_key" apiKey.
Definition getApiKey := getItemOr "openrouter_api_key" [].

Definition savePreferredModel (model : list N) := setItem "preferred_ai_model" model.
Definition getPreferredModel :=
  getItemOr "preferred_ai_model" (js "anthropic/claude-3-haiku").

Definition saveSelectedPrompt (promptId : list N) := setItem "selected_prompt" promptId.
Definition getSelectedPrompt := getItemOr "selected_prompt" (js "default").

Definition getDefaultPrompts : list CustomPrompt :=
  [mkPrompt (js "default") (js "Default Summary")
     (js "Please provide a comprehensive summary of the following article. Focus on the main points, key insights, and important details. Make the summary clear and well-structured:" ++ nl ++ nl);
   mkPrompt (js "brief") (js "Brief Summary")
     (js "Provide a brief, concise summary of the following article in 2-3 sentences:" ++ nl ++ nl);
   mkPrompt (js "bullet-points") (js "Bullet Points")
     (js "Summarize the following article using bullet points to highlight the key information:" ++ nl ++ nl);
   mkPrompt (js "academic") (js "Academic Analysis")
     (js "Provide an academic-style analysis and summary of the following article, including methodology, findings, and implications:" ++ nl ++ nl)].

(** [getAllPrompts]; [custom] is what [getCustomPrompts] read back. *)
Definition getAllPrompts (custom : list CustomPrompt) : list CustomPrompt :=
  getDefaultPrompts ++ custom.

(** The prompt [handleSummarize] passes on:
    [allPrompts.find(p => p.id === selectedPrompt)?.content] *)
Definition promptFor (custom : list CustomPrompt) (selectedPrompt : list N)
  : option (list N) :=
  prompt_content <$>
    List.find (fun p => eqb (prompt_id p) selectedPrompt) (getAllPrompts custom).

End Settings.

(** ** View logic: tag and URL lists, export, formatting
    (components KnowledgeStore, URLFetcher and the notes editor) *)

Module Views.

(** [Array.prototype.includes] on an array of strings *)
Definition includesItem (l : list (list N)) (x : list N) : bool :=
  existsb (eqb x) l.

(** [l.filter(t => t !== x)] *)
Definition without (x : list N) (l : list (list N)) : list (list N) :=
  List.filter (fun t => negb (eqb t x)) l.

(** [toggleTag] of KnowledgeStore, [handleTagFilter] of its other
    revision: the updater given to [setSelectedTags]. *)
Definition toggleTag (tag : list N) (prev : list (list N)) : list (list N) :=
  if includesItem prev tag then without tag prev else prev ++ [tag].

(** [addTag] of the notes editor and [addUrl] of URLFetcher have the same
    body: the new list and the new content of the input field. *)
Definition addItem (input : list N) (l : list (list N)) : list (list N) * list N :=
  if truthy input && negb (includesItem l input) then (l ++ [input], [])
  else (l, input).

Definition addTag (newTag : list N) (tags : list (list N)) := addItem newTag tags.
Definition addUrl (url : list N) (urls : list (list N)) := addItem url urls.

(** [removeTag], [removeUrl] *)
Definition removeTag (tagToRemove : list N) (tags : list (list N)) := without tagToRemove tags.
Definition removeUrl (urlToRemove : list N) (urls : list (list N)) := without urlToRemove urls.

(** The tags of all articles through a [Set], in insertion order:
    [Array.from(tags)] of [loadArticles],
    [[...new Set(articles.flatMap(article => article.tags || []))]]. *)
Fixpoint addAll (seen items : list (list N)) : list (list N) :=
  match items with
  | [] => seen
  | x :: rest => addAll (if includesItem seen x then seen else seen ++ [x]) rest
  end.

Definition allTags (articles : list Article) : list (list N) :=
  addAll [] (flat_map (fun a => tags (art_fields a)) articles).

(** [String.prototype.substring(start, end)]: the arguments are clamped to
    the length and swapped when out of order. *)
Definition substring (start stop : nat) (s : list N) : list N :=
  take (Nat.max start stop - Nat.min start stop) (drop (Nat.min start stop) s).

(** [applyFormat] of the notes editor, for a text area that exists;
    [start] and [stop] are [selectionStart] and [selectionEnd]. *)
Definition applyFormat (format : list N) (start stop : nat) (content : list N)
  : list N :=
  let selectedText := substring start stop content in
  if negb (truthy selectedText) then content
  else
    let formattedText :=
      if eqb format (js "bold") then js "**" ++ selectedText ++ js "**"
      else if eqb format (js "italic") then js "*" ++ selectedText ++ js "*"
      else if eqb format (js "underline") then js "<u>" ++ selectedText ++ js "</u>"
      else selectedText in
    substring 0 start content ++ formattedText ++ drop stop content.

(** [/[^a-z0-9]/gi]: without the [u] flag the pattern works on code units,
    and ignoring case adds only the ASCII capitals to the class. *)
Definition isAlnum (c : N) : bool :=
  ((48 <=? c) && (c <=? 57)) || ((65 <=? c) && (c <=? 90))
  || ((97 <=? c) && (c <=? 122)).

(** [title.replace(/[^a-z0-9]/gi, '_').toLowerCase()] *)
Definition fileStem (title : list N) : list N :=
  toLowerCase (List.map (fun c => if isAlnum c then c else 95) title).

(** [tags.join(', ')] *)
Fixpoint joinWith (sep : list N) (l : list (list N)) : list N :=
  match l with
  | [] => []
  | [x] => x
  | x :: rest => x ++ sep ++ joinWith sep rest
  end.

(** [content.replace(/\n/g, '<br>')] *)
Definition breaks (s : list N) : list N :=
  flat_map (fun c => if N.eqb c 10 then js "<br>" else [c]) s.

Inductive format : Type := Markdown | Html | Json.

(** The [switch] of [exportArticle]: content, file name and MIME type of
    the download; [stringify] is [JSON.stringify(article, null, 2)]. *)
Definition exportArticle (stringify : Article -> list N) (article : Article)
    (fmt : format) : list N * list N * list N :=
  let a := art_fields article in
  match fmt with
  | Markdown =>
      (js "# " ++ art_title a ++ nl ++ nl ++ content a ++ nl ++ nl
       ++ js "## Notes" ++ nl ++ nl
       ++ (match notes a with
           | Some n => if truthy n then n else js "No notes"
           | None => js "No notes"
           end)
       ++ nl ++ nl ++ js "## Tags" ++ nl ++ nl ++ joinWith (js ", ") (tags a),
       fileStem (art_title a) ++ js ".md",
       js "text/markdown")
  | Html =>
      (js "<!DOCTYPE html><html><head><title>" ++ art_title a
       ++ js "</title></head><body><h1>" ++ art_title a ++ js "</h1><div>"
       ++ breaks (content a) ++ js "</div></body></html>",
       fileStem (art_title a) ++ js ".html",
       js "text/html")
  | Json =>
      (stringify article,
       fileStem (art_title a) ++ js ".json",
       js "application/json")
  end.

End Views.

(** A code unit of a sanitised file name: [a]-[z], [0]-[9] or [_]. *)
Definition isStemUnit (c : N) : bool :=
  ((48 <=? c) && (c <=? 57)) || ((97 <=? c) && (c <=? 122)) || N.eqb c 95.

(** The selected text between two positions, and the text a format puts
    in its place. *)
Definition selection (start stop : nat) (content : list N) : list N :=
  take (stop - start) (drop start content).

Definition formatted (fmt : list N) (selectedText : list N) : list N :=
  if eqb fmt (js "bold") then js "**" ++ selectedText ++ js "**"
  else if eqb fmt (js "italic") then js "*" ++ selectedText ++ js "*"
  else if eqb fmt (js "underline") then js "<u>" ++ selectedText ++ js "</u>"
  else selectedText.

(** ** Saving from the views (pages/Index.tsx, the notes editor, the
    summarizer component, RSSReader) *)

Module Index.

(** [handleSaveToKnowledge]: [storageService.saveArticle(article)], the
    promise left alone.  [saveArticle] spreads its argument and then sets
    [id], so an identifier carried by the argument is dropped: only the
    other fields arrive. *)
Definition handleSaveToKnowledge (article : ArticleFields) (now : Z)
    (random36 : list N) (st : Storage) : Storage :=
  snd (StorageService.saveArticle article now random36 st).

End Index.

Record EditorHighlight : Type := mkEditorHighlight {
  eh_text : list N;
  eh_color : list N;
  eh_note : list N
}.

(** The state of the notes editor that [saveToKnowledge] reads. *)
Record EditorState : Type := mkEditorState {
  ed_title : list N;
  ed_content : list N;
  ed_notes : list N;
  ed_tags : list (list N);
  ed_highlights : list EditorHighlight
}.

Module Editor.

(** [`editor_${Date.now()}`] *)
Definition editorId (t : Z) : list N := js "editor_" ++ ofZ t.

(** [article?.id || `editor_${Date.now()}`] *)
Definition idOr (article : option Article) (t : Z) : list N :=
  match article with
  | Some a => if truthy (art_id a) then art_id a else editorId t
  | None => editorId t
  end.

(** [content.substring(0, 200) + '...'] *)
Definition excerpt (content : list N) : list N := take 200 content ++ js "...".

(** [saveToKnowledge]: the article handed to [onSaveToKnowledge], [None]
    when title or content is missing.  [tId], [tHighlight i] and [tPublish]
    are the clock readings for the identifier, for the highlight number [i]
    and for the publish date, taken only where the source takes them. *)
Definition saveToKnowledge (article : option Article) (ed : EditorState)
    (tId : Z) (tHighlight : nat -> Z) (tPublish : Z) : option Article :=
  if negb (truthy (ed_title ed)) || negb (truthy (ed_content ed)) then None
  else
    Some (mkArticle (idOr article tId)
      (mkArticleFields
         None
         (ed_title ed)
         (Some (match article with
                | Some a =>
                    match art_author (art_fields a) with
                    | Some au => if truthy au then au else js "User"
                    | None => js "User"
                    end
                | None => js "User"
                end))
         (match article with
          | Some a => if Z.eqb (publishDate (art_fields a)) 0 then tPublish
                      else publishDate (art_fields a)
          | None => tPublish
          end)
         (ed_content ed)
         (Some (excerpt (ed_content ed)))
         (match article with Some a => art_url (art_fields a) | None => [] end)
         true
         (ed_tags ed)
         (Some (ed_notes ed))
         (Some (imap (fun index h =>
                        mkHighlight (js "highlight_" ++ ofN (N.of_nat index))
                                    (idOr article (tHighlight index))
                                    (eh_text h) (eh_color h) (Some (eh_note h))
                                    (Z.of_nat index))
                     (ed_highlights ed))))).

End Editor.

Module SummarizerView.

(** The record [handleSaveToKnowledge] of the summarizer component builds. *)
Definition summaryArticle (article : Article) (summary : list N) (tPublish : Z)
  : ArticleFields :=
  mkArticleFields
    None
    (js "AI Summary: " ++ art_title (art_fields article))
    (Some (js "AI Assistant"))
    tPublish
    summary
    (Some (Editor.excerpt summary))
    (art_url (art_fields article))
    false
    [js "AI Summary"]
    (Some (js "Original article: " ++ art_title (art_fields article) ++ nl
           ++ js "Source: " ++ art_url (art_fields article)))
    None.

(** [handleSaveToKnowledge]: nothing without a summary or an article;
    otherwise [await storageService.saveArticle(summaryArticle)] and then
    [onSaveToKnowledge(summaryArticle)], which is [Index.handleSaveToKnowledge];
    a rejected save goes to the [catch]. *)
Definition handleSaveToKnowledge (article : option Article) (summary : list N)
    (tPublish now1 : Z) (random1 : list N) (now2 : Z) (random2 : list N)
    (st : Storage) : Storage :=
  match article with
  | Some a =>
      if truthy summary then
        match StorageService.saveArticle (summaryArticle a summary tPublish)
                now1 random1 st with
        | (Ok _, st1) =>
            Index.handleSaveToKnowledge (summaryArticle a summary tPublish)
              now2 random2 st1
        | (Err _, st1) => st1
        end
      else st
  | None => st
  end.

End SummarizerView.


Module Reader.





End Reader.

Module Notes.

Definition draft : EditorState :=
  mkEditorState (js "edited") (js "new body") (js "my notes") [js "t"]
                [mkEditorHighlight (js "new") (js "yellow") []].

Definition clock (i : nat) : Z := 1700000000000 + Z.of_nat i.



End Notes.

(** ** Batch conversion (components/URLFetcher) *)



Module Batch.

Section Host.

Variable toLocaleDateString : Z -> list N.
Variable parseFromString : list N -> document.




End Host.

End Batch.

(** ** Filtering and sorting in the knowledge store view
    (components/KnowledgeStore, [filterArticles]) *)


Module Knowledge.



Section Locale.

(** [String.prototype.localeCompare], which depends on the host's locale. *)
Variable localeCompare : list N -> list N -> Z.





End Locale.

End Knowledge.



(** * Properties *)

(** ** Strings, the error monad *)

Lemma eqb_eq (s t : list N) : eqb s t = true <-> s = t.
Proof.
  revert t; induction s as [|c s IH]; intros [|d t]; simpl; split;
    try congruence; try done.
  - intros [Hc Hs]%andb_prop. apply N.eqb_eq in Hc. apply IH in Hs. congruence.
  - intros [= -> ->]. rewrite N.eqb_refl. simpl. by apply IH.
Qed.

Lemma eqb_refl (s : list N) : eqb s s = true.
Proof. by apply eqb_eq. Qed.

Lemma includes_empty (s : list N) : includes s [] = true.
Proof. by destruct s. Qed.

Lemma orElse_Ok (x : list N) (b : result (list N)) :
  Ok x ||| b = if truthy x then Ok x else b.
Proof. reflexivity. Qed.

Lemma orElse_first (l : list (list N)) (b c : list N) :
  Ok (firstNonEmpty l b) ||| Ok c = Ok (firstNonEmpty (l ++ [b]) c).
Proof.
  induction l as [|a l IH]; cbn [firstNonEmpty app].
  - rewrite orElse_Ok. by destruct (truthy b).
  - destruct (truthy a) eqn:Ha; [|done]. by rewrite orElse_Ok, Ha.
Qed.

Lemma orElse_Ok2 (a d : list N) : Ok a ||| Ok d = Ok (firstNonEmpty [a] d).
Proof. rewrite orElse_Ok. cbn [firstNonEmpty]. by destruct (truthy a). Qed.

Lemma orElse_Ok3 (a b d : list N) :
  Ok a ||| Ok b ||| Ok d = Ok (firstNonEmpty [a; b] d).
Proof. by rewrite orElse_Ok2, (orElse_first [_]). Qed.

Lemma orElse_Ok4 (a b c d : list N) :
  Ok a ||| Ok b ||| Ok c ||| Ok d = Ok (firstNonEmpty [a; b; c] d).
Proof. by rewrite orElse_Ok3, (orElse_first [_; _]). Qed.

Lemma mapM_cons {A B} (f : A -> result B) (a : A) (l : list A) :
  mapM f (a :: l) =
  match f a with
  | Ok b => match mapM f l with Ok k => Ok (b :: k) | Err e => Err e end
  | Err e => Err e
  end.
Proof. cbn. destruct (f a); [|done]. cbn. by destruct (mapM f l). Qed.

Lemma mapM_Ok {A B} (f : A -> result B) (l : list A) (k : list B) :
  mapM f l = Ok k <-> Forall2 (fun a b => f a = Ok b) l k.
Proof.
  revert k; induction l as [|a l IH]; intros k.
  - cbn. split; [intros [= <-]; constructor | by inversion 1].
  - rewrite mapM_cons. split.
    + destruct (f a) as [b|e] eqn:Hb; [|done].
      destruct (mapM f l) as [k'|e] eqn:Hk; [|done].
      intros [= <-]. constructor; [done | by apply IH].
    + inversion 1 as [|? b ? k' Hb Hk]; subst. apply IH in Hk. by rewrite Hb, Hk.
Qed.

Lemma mapM_Ok_elem {A B} (f : A -> result B) (l : list A) (k : list B) (a : A) :
  mapM f l = Ok k -> a ∈ l -> exists b, f a = Ok b.
Proof.
  intros H%mapM_Ok. induction H as [|x y l k Hxy _ IH]; [by intros ?%elem_of_nil|].
  intros [->|Ha]%elem_of_cons; eauto.
Qed.

Lemma mapM_Err {A B} (f : A -> result B) (l : list A) (e : exn) :
  mapM f l = Err e -> exists a, a ∈ l /\ f a = Err e.
Proof.
  induction l as [|a l IH]; [done|]. rewrite mapM_cons.
  destruct (f a) as [b|e'] eqn:Hb.
  - destruct (mapM f l) as [k'|e'] eqn:Hk; [done|].
    intros [= ->]. destruct IH as (x & Hx & Hfx); [done|].
    exists x. split; [by right | done].
  - intros [= ->]. exists a. split; [by left | done].
Qed.

(** ** DOM trees and selectors *)

(** Induction on trees, with the hypothesis for every child. *)
Lemma node_tree_ind (P : node -> Prop) :
  (forall d, P (Text d)) ->
  (forall d, P (Comment d)) ->
  (forall t a cs, Forall P cs -> P (Element t a cs)) ->
  forall n, P n.
Proof.
  intros HT HC HE. fix IH 1. intros [d|d|t a cs]; [apply HT | apply HC |].
  apply HE. induction cs as [|c cs IHcs]; constructor; [apply IH | apply IHcs].
Qed.

Lemma inclusiveElements_isElement (e n : node) :
  e ∈ Dom.inclusiveElements n -> Dom.isElement e = true.
Proof.
  revert e. induction n as [d|d|t a cs IH] using node_tree_ind; intros e; cbn.
  - by intros ?%elem_of_nil.
  - by intros ?%elem_of_nil.
  - intros [->|He]%elem_of_cons; [done|].
    apply list_elem_of_In, in_flat_map in He as (c & Hc & He).
    rewrite Forall_forall in IH. apply (IH c); by apply list_elem_of_In.
Qed.

(** [inclusiveElements] lists the elements at or below the node. *)
Lemma elem_of_inclusiveElements (e n : node) :
  e ∈ Dom.inclusiveElements n <-> Dom.isElement e = true /\ within e n.
Proof.
  split.
  - intros He. split; [by eapply inclusiveElements_isElement|].
    revert e He. induction n as [d|d|t a cs IH] using node_tree_ind; intros e; cbn.
    + by intros ?%elem_of_nil.
    + by intros ?%elem_of_nil.
    + intros [->|He]%elem_of_cons; [constructor|].
      apply list_elem_of_In, in_flat_map in He as (c & Hc & He).
      apply list_elem_of_In in Hc, He. rewrite Forall_forall in IH.
      eapply within_child; [done | by apply IH].
  - intros [He Hw]. induction Hw as [|t a cs c Hc Hw IH].
    + destruct e; try done. cbn. by left.
    + cbn. right. apply list_elem_of_In, in_flat_map. exists c.
      split; by apply list_elem_of_In.
Qed.

(** [documentElements] lists the elements of the document. *)
Lemma elem_of_documentElements (e : node) (d : document) :
  e ∈ Dom.documentElements d <-> inDocument e d.
Proof.
  unfold Dom.documentElements, inDocument. rewrite list_elem_of_In, in_flat_map.
  split.
  - intros (n & Hn & He). apply list_elem_of_In in Hn, He.
    apply elem_of_inclusiveElements in He as [? ?]. eauto.
  - intros (He & n & Hn & Hw). exists n. split; [by apply list_elem_of_In|].
    apply list_elem_of_In, elem_of_inclusiveElements. done.
Qed.

Lemma head_filter_find {A} (p : A -> bool) (l : list A) :
  head (List.filter p l) = List.find p l.
Proof. induction l as [|a l IH]; [done|]. cbn. by destruct (p a). Qed.

Lemma find_None_iff {A} (p : A -> bool) (l : list A) :
  List.find p l = None <-> forall a, a ∈ l -> p a = false.
Proof.
  split.
  - intros H a Ha. apply list_elem_of_In in Ha. by eapply find_none.
  - induction l as [|a l IH]; [done|]. intros H. cbn.
    rewrite (H a) by (by left). apply IH. intros b Hb. apply H. by right.
Qed.

Lemma find_Some_elem {A} (p : A -> bool) (l : list A) (a : A) :
  List.find p l = Some a -> a ∈ l /\ p a = true.
Proof. intros [? ?]%find_some. split; [by apply list_elem_of_In | done]. Qed.

Lemma matches_tag (q : bool) (name : string) (e : node) :
  Selector.matches q (Selector.tag name) e = hasTag name e.
Proof.
  unfold Selector.matches, Selector.tag, hasTag. cbn.
  by rewrite !andb_true_r, orb_false_r.
Qed.

Lemma matches_class (q : bool) (name : string) (e : node) :
  Selector.matches q (Selector.class name) e = hasClass q name e.
Proof.
  unfold Selector.matches, Selector.class, hasClass. cbn.
  by rewrite !andb_true_r, orb_false_r.
Qed.

Lemma filter_ext_bool {A} (p r : A -> bool) (l : list A) :
  (forall a, p a = r a) -> List.filter p l = List.filter r l.
Proof. intros H. induction l as [|a l IH]; [done|]. cbn. by rewrite H, IH. Qed.

Lemma find_ext_bool {A} (p r : A -> bool) (l : list A) :
  (forall a, p a = r a) -> List.find p l = List.find r l.
Proof. intros H. induction l as [|a l IH]; [done|]. cbn. by rewrite H, IH. Qed.

Lemma selectFirst_tag (q : bool) (scope : list node) (name : string) :
  Selector.selectFirst q scope (Selector.tag name)
  = Ok (List.find (hasTag name) scope).
Proof.
  unfold Selector.selectFirst, Selector.selectAll. cbn.
  rewrite head_filter_find. f_equal. apply find_ext_bool, matches_tag.
Qed.

Lemma selectFirst_class (q : bool) (scope : list node) (name : string) :
  Selector.selectFirst q scope (Selector.class name)
  = Ok (List.find (hasClass q name) scope).
Proof.
  unfold Selector.selectFirst, Selector.selectAll. cbn.
  rewrite head_filter_find. f_equal. apply find_ext_bool, matches_class.
Qed.

(** The selector ['dc:creator'] does not parse. *)
Lemma dc_creator_invalid : Selector.valid RSSParser.dc_creator = false.
Proof. reflexivity. Qed.

(** ** Feed parser *)

Lemma getTextContent_tag (item : node) (name : string) :
  RSSParser.getTextContent item (Selector.tag name) = Ok (fieldText item name).
Proof.
  unfold RSSParser.getTextContent, querySelector. by rewrite selectFirst_tag.
Qed.

Lemma getAttributeContent_link (item : node) :
  RSSParser.getAttributeContent item (Selector.tag "link") (js "href")
  = Ok (linkHref item).
Proof.
  unfold RSSParser.getAttributeContent, querySelector. by rewrite selectFirst_tag.
Qed.

Lemma getTextContent_dc_creator (item : node) :
  RSSParser.getTextContent item RSSParser.dc_creator = Err SyntaxError.
Proof. reflexivity. Qed.

(** [parseItem] returns when the item has a non-empty [author] text;
    otherwise it evaluates ['dc:creator'] and throws. *)
Lemma parseItem_cases (item : node) :
  RSSParser.parseItem item =
  if truthy (fieldText item "author") then Ok (itemOf item) else Err SyntaxError.
Proof.
  unfold RSSParser.parseItem, lit.
  rewrite !getTextContent_tag, getAttributeContent_link, getTextContent_dc_creator.
  rewrite !orElse_Ok4, !orElse_Ok3, orElse_Ok2.
  cbn [mbind result_bind].
  rewrite (orElse_Ok (fieldText item "author")).
  destruct (truthy (fieldText item "author")) eqn:Ha.
  - rewrite orElse_Ok, Ha. reflexivity.
  - reflexivity.
Qed.

Lemma hasTag_true (name : string) (e : node) :
  hasTag name e = true <-> Dom.isElement e = true /\ Dom.tagOf e = js name.
Proof.
  unfold hasTag. rewrite andb_true_iff, eqb_eq. split; intros [? ?]; by split.
Qed.

Lemma matches_item_entry (q : bool) (e : node) :
  Selector.matches q RSSParser.item_entry e = isEntry e.
Proof.
  unfold Selector.matches, RSSParser.item_entry, isEntry, hasTag. cbn.
  rewrite !andb_true_r, orb_false_r. by destruct (Dom.isElement e).
Qed.

Lemma find_hasTag_None (name : string) (d : document) :
  List.find (hasTag name) (Dom.documentElements d) = None <-> ~ present name d.
Proof.
  rewrite find_None_iff. unfold present. split.
  - intros H (e & He & Ht). apply elem_of_documentElements in He as He'.
    specialize (H e He'). destruct He as [Hel _].
    assert (hasTag name e = true) by (by apply hasTag_true). congruence.
  - intros H e He. apply elem_of_documentElements in He.
    destruct (hasTag name e) eqn:Ht; [|done].
    apply hasTag_true in Ht as [_ Ht]. exfalso. apply H. eauto.
Qed.

(** [parseRSS] in closed form. *)
Lemma parseRSS_cases (doc : document) :
  RSSParser.parseRSS doc =
  match container doc with
  | None => Err MalformedFeed
  | Some channel =>
      match mapM RSSParser.parseItem (entries doc) with
      | Ok its => Ok (feedOf channel its)
      | Err e => Err e
      end
  end.
Proof.
  unfold RSSParser.parseRSS, container, docQuerySelector, docQuerySelectorAll, lit.
  rewrite !selectFirst_tag. cbn [mbind result_bind].
  assert (Hshape : forall channel : node,
    (title ← RSSParser.getTextContent channel (Selector.tag "title")
              ||| Ok (js "Unknown Feed");
     description ← RSSParser.getTextContent channel (Selector.tag "description")
                    ||| RSSParser.getTextContent channel (Selector.tag "subtitle")
                    ||| Ok (js "");
     link ← RSSParser.getTextContent channel (Selector.tag "link") ||| Ok (js "");
     entries ← Selector.selectAll (quirks doc) (Dom.documentElements doc)
                 RSSParser.item_entry;
     items ← mapM RSSParser.parseItem entries;
     mret (mkRSSFeed title description link items))
    = match mapM RSSParser.parseItem (entries doc) with
      | Ok its => Ok (feedOf channel its)
      | Err e => Err e
      end).
  { intros channel. rewrite !getTextContent_tag, orElse_Ok3, !orElse_Ok2.
    cbn [mbind result_bind]. unfold Selector.selectAll, entries.
    change (Selector.valid RSSParser.item_entry) with true. cbn iota.
    rewrite (filter_ext_bool _ isEntry) by apply matches_item_entry.
    cbn [mbind result_bind]. by destruct (mapM _ _). }
  destruct (List.find (hasTag "channel") _) as [c|].
  - cbn [mret result_ret mbind result_bind]. apply Hshape.
  - destruct (List.find (hasTag "feed") _) as [c|]; [apply Hshape | done].
Qed.

Lemma parseItem_Err (item : node) (e : exn) :
  RSSParser.parseItem item = Err e -> e = SyntaxError.
Proof. rewrite parseItem_cases. destruct (truthy _); congruence. Qed.

Lemma parseItem_Ok (item : node) (it : RSSItem) :
  RSSParser.parseItem item = Ok it -> it = itemOf item.
Proof. rewrite parseItem_cases. destruct (truthy _); congruence. Qed.

Lemma container_None (doc : document) :
  container doc = None <-> ~ present "channel" doc /\ ~ present "feed" doc.
Proof.
  unfold container. rewrite <- !find_hasTag_None.
  destruct (List.find (hasTag "channel") _); [|tauto].
  split; [done | by intros [? _]].
Qed.

Lemma Forall2_Ok_map (l : list node) (k : list RSSItem) :
  Forall2 (fun e it => RSSParser.parseItem e = Ok it) l k -> k = List.map itemOf l.
Proof.
  induction 1 as [|e it l k He _ IH]; [done|]. cbn.
  by rewrite (parseItem_Ok _ _ He), IH.
Qed.

(** When every entry carries a non-empty [author] text, the feed has one
    item per entry-like element of the document, filled by the alias
    rules. *)
Lemma parseRSS_all_authors (doc : document) (channel : node) :
  container doc = Some channel ->
  (forall e, e ∈ entries doc -> fieldText e "author" <> []) ->
  RSSParser.parseRSS doc = Ok (feedOf channel (List.map itemOf (entries doc))).
Proof.
  intros Hc Hall. rewrite parseRSS_cases, Hc.
  destruct (mapM _ _) as [its|e] eqn:Hm.
  - apply mapM_Ok, Forall2_Ok_map in Hm. by rewrite Hm.
  - apply mapM_Err in Hm as (a & Ha & Hf). rewrite parseItem_cases in Hf.
    specialize (Hall a Ha). destruct (fieldText a "author"); [done | discriminate].
Qed.

(** [parseRSS] returns exactly when a container is present and every entry
    has a non-empty [author] text, and then the feed is determined. *)
Lemma parseRSS_Ok_iff (doc : document) (feed : RSSFeed) :
  RSSParser.parseRSS doc = Ok feed
  <-> exists channel, container doc = Some channel
                      /\ (forall e, e ∈ entries doc -> fieldText e "author" <> [])
                      /\ feed = feedOf channel (List.map itemOf (entries doc)).
Proof.
  split.
  - rewrite parseRSS_cases. destruct (container doc) as [channel|]; [|done].
    destruct (mapM _ _) as [its|x] eqn:Hm; [|done]. intros [= <-].
    exists channel. split; [done|]. split.
    + intros e He Ha. destruct (mapM_Ok_elem _ _ _ _ Hm He) as (it & Hit).
      rewrite parseItem_cases, Ha in Hit. discriminate.
    + apply mapM_Ok, Forall2_Ok_map in Hm. by rewrite Hm.
  - intros (channel & Hc & Hall & ->). by apply parseRSS_all_authors.
Qed.

(** An entry without [author] text makes [parseRSS] throw. *)
Lemma parseRSS_entry_without_author (doc : document) (e : node) :
  container doc <> None ->
  e ∈ entries doc -> fieldText e "author" = [] ->
  RSSParser.parseRSS doc = Err SyntaxError.
Proof.
  intros Hc He Ha. rewrite parseRSS_cases.
  destruct (container doc) as [channel|]; [|done].
  destruct (mapM _ _) as [its|x] eqn:Hm.
  - destruct (mapM_Ok_elem _ _ _ _ Hm He) as (it & Hit).
    rewrite parseItem_cases, Ha in Hit. discriminate.
  - apply mapM_Err in Hm as (a & _ & Hf). by rewrite (parseItem_Err _ _ Hf).
Qed.

(** C1 (the code departs from the claim).  On the one-item RSS document
    [<rss><channel><title>T</title><item><title>A</title></item></channel></rss>]
    the claim promises a feed with one item whose author is the empty
    string; [parseRSS] instead throws the [SyntaxError] of the selector
    ['dc:creator'], which it evaluates for every entry that has no [author]
    text. *)
Theorem parseRSS_no_author_throws :
  present "channel" Samples.rss_no_author
  /\ length (entries Samples.rss_no_author) = 1%nat
  /\ RSSParser.parseRSS Samples.rss_no_author = Err SyntaxError.
Proof.
  split; [|split; reflexivity].
  exists (Samples.el "channel" [Samples.el "title" [Samples.txt "T"];
                               Samples.el "item" [Samples.el "title" [Samples.txt "A"]]]).
  split; [|reflexivity]. apply elem_of_documentElements, list_elem_of_In.
  cbn. right. left. reflexivity.
Qed.

(** The feed whose items carry an [author] parses: one item per entry,
    the text trimmed, an empty [description] passed over for the
    [summary], missing fields empty. *)
Example parseRSS_with_author :
  RSSParser.parseRSS Samples.rss_with_author
  = Ok (mkRSSFeed (js "T") [] []
          [mkRSSItem (js "A") [] (js "s") [] (js "Ann") (js "g1");
           mkRSSItem (js "Untitled") [] (js "t") [] (js "Bob") []]).
Proof. reflexivity. Qed.

Example parseRSS_not_a_feed :
  RSSParser.parseRSS Samples.not_a_feed = Err MalformedFeed.
Proof. reflexivity. Qed.

(** C2.  [parseRSS] fails with the error "Invalid RSS/Atom feed"
    (MalformedFeed) exactly on the documents in which neither a [channel]
    nor a [feed] element is present, and that error differs from the errors
    of the network layer (a rejected [fetch], a non-2xx status). *)
Theorem parseRSS_malformed_iff (doc : document) :
  (RSSParser.parseRSS doc = Err MalformedFeed
   <-> ~ present "channel" doc /\ ~ present "feed" doc)
  /\ MalformedFeed <> NetworkError
  /\ (forall statusText, MalformedFeed <> TransportFailure statusText).
Proof.
  split; [|split; [discriminate | intros s; discriminate]].
  rewrite <- container_None, parseRSS_cases.
  destruct (container doc) as [channel|]; [|done].
  split; [|done].
  destruct (mapM _ _) as [its|x] eqn:Hm; [done|].
  apply mapM_Err in Hm as (a & _ & Hf). rewrite (parseItem_Err _ _ Hf). discriminate.
Qed.

(** C10.  When [parseRSS] returns a feed, its items are the [item] and
    [entry] elements of the whole document, one item per element and in
    document order, each filled from its element; an entry-like element
    anywhere in the document, inside the located container or not, has its
    item in the result. *)
Theorem parseRSS_items_span_document (doc : document) (feed : RSSFeed) :
  RSSParser.parseRSS doc = Ok feed ->
  items feed = List.map itemOf (List.filter isEntry (Dom.documentElements doc))
  /\ (forall e, inDocument e doc -> isEntry e = true -> itemOf e ∈ items feed).
Proof.
  rewrite parseRSS_cases. destruct (container doc) as [channel|]; [|done].
  destruct (mapM _ _) as [its|x] eqn:Hm; [|done]. intros [= <-].
  apply mapM_Ok, Forall2_Ok_map in Hm. cbn [items feedOf]. split; [done|].
  intros e He Hentry. rewrite Hm. apply list_elem_of_In, in_map, filter_In.
  split; [|done]. by apply list_elem_of_In, elem_of_documentElements.
Qed.

(** The [item] of this document is a sibling of the [channel]; it is the
    one item of the result. *)
Lemma parseRSS_items_span_document_witness :
  RSSParser.parseRSS Samples.rss_item_outside
  = Ok (mkRSSFeed (js "T") [] [] [mkRSSItem (js "A") [] [] [] (js "Ann") []])
  /\ Dom.descendants (Samples.el "channel" [Samples.el "title" [Samples.txt "T"]])
     = [Samples.el "title" [Samples.txt "T"]]
  /\ [mkRSSItem (js "A") [] [] [] (js "Ann") []]
     = List.map itemOf (List.filter isEntry (Dom.documentElements Samples.rss_item_outside)).
Proof.
  split; [reflexivity|]. split; [reflexivity|].
  apply (parseRSS_items_span_document Samples.rss_item_outside
           (mkRSSFeed (js "T") [] [] [mkRSSItem (js "A") [] [] [] (js "Ann") []])).
  reflexivity.
Defined.

(** ** Markdown converter *)

Lemma selectAll_tag (q : bool) (scope : list node) (name : string) :
  Selector.selectAll q scope (Selector.tag name)
  = Ok (List.filter (hasTag name) scope).
Proof.
  unfold Selector.selectAll. cbn. f_equal. apply filter_ext_bool, matches_tag.
Qed.

Lemma processListItems_eq (q : bool) (listElement : node) (marker : list N) :
  URLToMarkdownConverter.processListItems q listElement marker
  = Ok (concat (imap (URLToMarkdownConverter.listItem marker) (listItems listElement))).
Proof.
  unfold URLToMarkdownConverter.processListItems, querySelectorAll.
  by rewrite selectAll_tag.
Qed.

Lemma imap_const_map {A B} (f : A -> B) (l : list A) :
  imap (fun _ => f) l = List.map f l.
Proof.
  induction l as [|a l IH]; [done|]. cbn. f_equal. exact IH.
Qed.

(** Unordered lists: the marker [-] in front of every item. *)
Lemma processListItems_ul (q : bool) (listElement : node) :
  URLToMarkdownConverter.processListItems q listElement (js "-")
  = Ok (concat (List.map (fun li => js "- " ++ Dom.textContent li ++ nl)
                         (listItems listElement))).
Proof.
  rewrite processListItems_eq. f_equal. f_equal.
  rewrite <- imap_const_map. apply imap_ext. intros i li _. reflexivity.
Qed.

(** Ordered lists: item number [i] (from 0) carries the marker [i+1]
    in decimal, followed by a dot. *)
Lemma processListItems_ol (q : bool) (listElement : node) :
  URLToMarkdownConverter.processListItems q listElement (js "1.")
  = Ok (concat (imap (fun i li => ofN (N.of_nat (i + 1)) ++ js ". "
                                  ++ Dom.textContent li ++ nl)
                     (listItems listElement))).
Proof.
  rewrite processListItems_eq. f_equal. f_equal.
  apply imap_ext. intros i li _. unfold URLToMarkdownConverter.listItem.
  rewrite eqb_refl, <- app_assoc. reflexivity.
Qed.

Example toISOString_epoch :
  Host.toISOString 0 = js "1970-01-01T00:00:00.000Z"
  /\ Host.toISOString 1709251199999 = js "2024-02-29T23:59:59.999Z"
  /\ Host.toISOString (-1) = js "1969-12-31T23:59:59.999Z".
Proof. repeat split. Qed.

Example heading_conversion :
  URLToMarkdownConverter.htmlToMarkdown false
    (Samples.el "body" [Samples.el "h1" [Samples.txt "X"]])
  = Ok (js "# X" ++ nl ++ nl).
Proof. reflexivity. Qed.

(** C3 (as the code has it).  For the body [<ol><li>A</li><li>B</li></ol>]
    the items are rendered as "1. A\n2. B\n", numbered from 1 in document
    order, and the conversion closes the list with one more newline: the
    markdown is exactly "1. A\n2. B\n\n".  For [ul] every item carries the
    marker "-": "- A\n- B\n\n" for the same items, and in general one line
    "- text" per [li]. *)
Theorem list_conversion :
  URLToMarkdownConverter.processListItems true Samples.ol_AB (js "1.")
  = Ok (js "1. A" ++ nl ++ js "2. B" ++ nl)
  /\ (forall url w,
        markdown <$> (fst (URLToMarkdownConverter.convertHTMLToMarkdown Samples.ol_doc url w))
        = Ok (js "1. A" ++ nl ++ js "2. B" ++ nl ++ nl))
  /\ (forall url w,
        markdown <$> (fst (URLToMarkdownConverter.convertHTMLToMarkdown Samples.ul_doc url w))
        = Ok (js "- A" ++ nl ++ js "- B" ++ nl ++ nl))
  /\ (forall q listElement,
        URLToMarkdownConverter.processListItems q listElement (js "-")
        = Ok (concat (List.map (fun li => js "- " ++ Dom.textContent li ++ nl)
                               (listItems listElement))))
  /\ (forall q listElement,
        URLToMarkdownConverter.processListItems q listElement (js "1.")
        = Ok (concat (imap (fun i li => ofN (N.of_nat (i + 1)) ++ js ". "
                                        ++ Dom.textContent li ++ nl)
                           (listItems listElement)))).
Proof.
  split; [reflexivity|]. split; [reflexivity|]. split; [reflexivity|].
  split; [apply processListItems_ul | apply processListItems_ol].
Qed.

(** C3 as worded fails: the markdown of [<ol><li>A</li><li>B</li></ol>] is
    not "1. A\n2. B\n". *)
Lemma list_conversion_trailing_newline :
  markdown <$> (fst (URLToMarkdownConverter.convertHTMLToMarkdown Samples.ol_doc [] Samples.world0))
  <> Ok (js "1. A" ++ nl ++ js "2. B" ++ nl).
Proof. discriminate. Qed.

Lemma removeEach_stripped (doc : document) :
  URLToMarkdownConverter.removeEach doc URLToMarkdownConverter.elementsToRemove
  = Ok (stripped doc).
Proof. reflexivity. Qed.

Lemma firstMatch_priority (doc : document) :
  URLToMarkdownConverter.firstMatch doc URLToMarkdownConverter.contentSelectors
  = Ok (firstByPriority
          [hasTag "article"; hasTag "main"; hasClass (quirks doc) "content";
           hasClass (quirks doc) "post"; hasClass (quirks doc) "entry"] doc).
Proof.
  unfold URLToMarkdownConverter.contentSelectors, firstOf.
  cbn [URLToMarkdownConverter.firstMatch firstByPriority]. unfold docQuerySelector, firstOf.
  rewrite !selectFirst_tag, !selectFirst_class. cbn [mbind result_bind].
  repeat (match goal with
          | |- context [List.find ?p ?l] => destruct (List.find p l); [reflexivity|]
          end).
  reflexivity.
Qed.

Lemma mainContent_priority (doc : document) :
  URLToMarkdownConverter.mainContent doc = Ok (priorityRoot doc).
Proof.
  unfold URLToMarkdownConverter.mainContent, priorityRoot.
  by rewrite firstMatch_priority.
Qed.

Lemma contentRoot_eq (doc : document) :
  contentRoot doc = Ok (priorityRoot (stripped doc)).
Proof.
  unfold contentRoot. rewrite removeEach_stripped. cbn [mbind result_bind].
  apply mainContent_priority.
Qed.

(** The markdown of a conversion is the markdown of the content root. *)
Lemma convert_markdown_of_root (doc : document) (url : list N) (w : World) :
  markdown <$> fst (URLToMarkdownConverter.convertHTMLToMarkdown doc url w)
  = (root ← contentRoot doc;
     match root with
     | Some el => URLToMarkdownConverter.htmlToMarkdown (quirks (stripped doc)) el
     | None => Err TypeError
     end).
Proof.
  unfold URLToMarkdownConverter.convertHTMLToMarkdown, contentRoot. cbn [fst].
  unfold docQuerySelector, URLToMarkdownConverter.metaNamed.
  rewrite selectFirst_tag. cbn [mbind result_bind].
  rewrite removeEach_stripped. cbn [mbind result_bind].
  rewrite mainContent_priority. cbn [mbind result_bind].
  destruct (priorityRoot (stripped doc)) as [el|]; [|reflexivity].
  by destruct (URLToMarkdownConverter.htmlToMarkdown _ el).
Qed.

(** C4 (as the code has it).  Two conversions of the same document and
    URL agree on the markdown, the title and the metadata fields title,
    author, description and url, and both succeed or both fail with the
    same error; [extractedAt] is the clock reading of each call rendered by
    [toISOString].  The call leaves the world as it found it: no request is
    sent. *)
Theorem convert_same_up_to_clock (doc : document) (url : list N) (w1 w2 : World) :
  snd (URLToMarkdownConverter.convertHTMLToMarkdown doc url w1) = w1
  /\ match fst (URLToMarkdownConverter.convertHTMLToMarkdown doc url w1),
           fst (URLToMarkdownConverter.convertHTMLToMarkdown doc url w2) with
     | Ok c1, Ok c2 =>
         markdown c1 = markdown c2 /\ title c1 = title c2
         /\ meta_title (metadata c1) = meta_title (metadata c2)
         /\ meta_author (metadata c1) = meta_author (metadata c2)
         /\ meta_description (metadata c1) = meta_description (metadata c2)
         /\ meta_url (metadata c1) = url /\ meta_url (metadata c2) = url
         /\ meta_extractedAt (metadata c1) = Host.toISOString (now w1)
         /\ meta_extractedAt (metadata c2) = Host.toISOString (now w2)
     | Err e1, Err e2 => e1 = e2
     | _, _ => False
     end.
Proof.
  split; [reflexivity|].
  unfold URLToMarkdownConverter.convertHTMLToMarkdown. cbn [fst].
  unfold docQuerySelector, URLToMarkdownConverter.metaNamed.
  rewrite selectFirst_tag. cbn [mbind result_bind].
  rewrite removeEach_stripped. cbn [mbind result_bind].
  rewrite mainContent_priority. cbn [mbind result_bind].
  destruct (priorityRoot (stripped doc)) as [el|]; [|reflexivity].
  destruct (URLToMarkdownConverter.htmlToMarkdown _ el); [|reflexivity].
  cbn. repeat split.
Qed.

(** C4 as worded fails: the same document and URL converted at two clock
    readings give different results. *)
Lemma convert_depends_on_clock :
  fst (URLToMarkdownConverter.convertHTMLToMarkdown Samples.ol_doc [] Samples.world0)
  <> fst (URLToMarkdownConverter.convertHTMLToMarkdown Samples.ol_doc [] Samples.world1).
Proof. discriminate. Qed.

(** *** The removal pass *)

Lemma prune_Element (gone : node -> bool) t a cs :
  URLToMarkdownConverter.prune gone (Element t a cs)
  = Element t a (URLToMarkdownConverter.pruneAll gone cs).
Proof.
  cbn [URLToMarkdownConverter.prune]. f_equal. unfold URLToMarkdownConverter.pruneAll.
  induction cs as [|c cs IH]; [done|]. cbn [List.filter List.map].
  destruct (gone c); cbn [negb List.map]; by rewrite IH.
Qed.

(** Whether a selector matches depends on the name and the attributes of
    the element, which pruning keeps. *)
Lemma matches_prune (q : bool) (sel : list (list simple)) (gone : node -> bool) (e : node) :
  Selector.matches q sel (URLToMarkdownConverter.prune gone e) = Selector.matches q sel e.
Proof.
  destruct e as [d|d|t a cs]; [done|done|]. rewrite prune_Element.
  reflexivity.
Qed.

Lemma elements_pruneAll_of (gone : node -> bool) (l : list node) :
  Forall (fun n => gone n = false ->
                   forall e, e ∈ Dom.inclusiveElements (URLToMarkdownConverter.prune gone n) ->
                             prunedFrom gone (Dom.inclusiveElements n) e) l ->
  forall e, e ∈ flat_map Dom.inclusiveElements (URLToMarkdownConverter.pruneAll gone l) ->
            prunedFrom gone (flat_map Dom.inclusiveElements l) e.
Proof.
  induction 1 as [|n l Hn _ IH]; intros e; [by intros ?%elem_of_nil|].
  unfold URLToMarkdownConverter.pruneAll. cbn [List.filter flat_map].
  destruct (gone n) eqn:Hgone; cbn [negb List.map flat_map].
  - intros (e0 & H0 & Hg & ->)%IH. pruned_from e0 right.
  - intros [He|He]%elem_of_app.
    + destruct (Hn eq_refl e He) as (e0 & H0 & Hg & ->). pruned_from e0 left.
    + destruct (IH e He) as (e0 & H0 & Hg & ->). pruned_from e0 right.
Qed.

Lemma elements_prune (gone : node -> bool) (n : node) :
  gone n = false ->
  forall e, e ∈ Dom.inclusiveElements (URLToMarkdownConverter.prune gone n) ->
            prunedFrom gone (Dom.inclusiveElements n) e.
Proof.
  induction n as [d|d|t a cs IH] using node_tree_ind; intros Hn e.
  - by intros ?%elem_of_nil.
  - by intros ?%elem_of_nil.
  - rewrite prune_Element. cbn [Dom.inclusiveElements].
    intros [->|He]%elem_of_cons.
    + exists (Element t a cs). rewrite prune_Element. split; [by left | done].
    + destruct (elements_pruneAll_of gone cs IH e He) as (e0 & H0 & Hg & ->).
      exists e0. split; [by right | done].
Qed.

Lemma elements_pruneAll (gone : node -> bool) (l : list node) (e : node) :
  e ∈ flat_map Dom.inclusiveElements (URLToMarkdownConverter.pruneAll gone l) ->
  prunedFrom gone (flat_map Dom.inclusiveElements l) e.
Proof.
  apply elements_pruneAll_of, Forall_forall. intros n _ Hn. by apply elements_prune.
Qed.

Lemma quirks_foldl_stripOne (doc : document) (sels : list (list (list simple))) :
  quirks (foldl stripOne doc sels) = quirks doc.
Proof. revert doc. induction sels as [|s sels IH]; intros doc; [done|]. cbn. by rewrite IH. Qed.

(** After the removal pass no element matches a selector of the list. *)
Lemma foldl_stripOne_clean (sels : list (list (list simple))) (doc : document)
    (sel : list (list simple)) (e : node) :
  sel ∈ sels -> e ∈ Dom.documentElements (foldl stripOne doc sels) ->
  Selector.matches (quirks doc) sel e = false.
Proof.
  revert e. induction sels as [|s sels IH] using rev_ind; [by intros e ?%elem_of_nil|].
  intros e Hsel. rewrite foldl_app. cbn [foldl]. unfold stripOne at 1.
  unfold Dom.documentElements at 1. cbn [nodes]. rewrite quirks_foldl_stripOne.
  intros (e0 & H0 & Hg & ->)%elements_pruneAll. rewrite matches_prune.
  apply elem_of_app in Hsel as [Hsel|Hsel%list_elem_of_singleton].
  - by apply IH.
  - by subst s.
Qed.

Lemma stripped_clean (doc : document) (sel : list (list simple)) (e : node) :
  sel ∈ URLToMarkdownConverter.elementsToRemove -> inDocument e (stripped doc) ->
  Selector.matches (quirks doc) sel e = false.
Proof.
  intros Hsel He. apply (foldl_stripOne_clean _ _ _ _ Hsel).
  by apply elem_of_documentElements.
Qed.

(** C5 (as the code has it).  The content root is chosen in the document
    left by the removal pass ([script], [style], [nav], [header], [footer],
    [.advertisement], [.sidebar] and all they contain): there it is the
    first element, in document order, of the first kind that occurs, the
    kinds taken in the order [article], [main], [.content], [.post],
    [.entry], and the body if none occurs; no element of that document
    matches a selector of the removal list.  In particular, when an [article]
    remains after the removal pass, the first such [article] is the root,
    whatever else the document holds; the markdown returned is that of
    this root. *)
Theorem content_root_priority (doc : document) :
  URLToMarkdownConverter.removeEach doc URLToMarkdownConverter.elementsToRemove
  = Ok (stripped doc)
  /\ (forall sel e, sel ∈ URLToMarkdownConverter.elementsToRemove ->
                    inDocument e (stripped doc) ->
                    Selector.matches (quirks doc) sel e = false)
  /\ URLToMarkdownConverter.mainContent (stripped doc) = Ok (priorityRoot (stripped doc))
  /\ (present "article" (stripped doc) ->
      exists a, firstOf (hasTag "article") (stripped doc) = Some a
                /\ inDocument a (stripped doc) /\ Dom.tagOf a = js "article"
                /\ contentRoot doc = Ok (Some a))
  /\ (forall url w,
        markdown <$> fst (URLToMarkdownConverter.convertHTMLToMarkdown doc url w)
        = (root ← contentRoot doc;
           match root with
           | Some el => URLToMarkdownConverter.htmlToMarkdown (quirks (stripped doc)) el
           | None => Err TypeError
           end)).
Proof.
  split; [apply removeEach_stripped|].
  split; [intros sel e; apply stripped_clean|].
  split; [apply mainContent_priority|].
  split; [|intros; apply convert_markdown_of_root].
  intros Hp. rewrite contentRoot_eq. unfold priorityRoot, firstOf.
  cbn [firstByPriority]. unfold firstOf.
  destruct (List.find (hasTag "article") _) as [a|] eqn:Ha.
  - exists a. apply find_Some_elem in Ha as [Hin Ht].
    apply hasTag_true in Ht as [_ Ht].
    by rewrite elem_of_documentElements in Hin.
  - by apply find_hasTag_None in Ha.
Qed.

(** C5 as worded fails: this document holds an [article], inside a
    [.sidebar], and the content root is its [main]. *)
Lemma content_root_skips_removed_article :
  present "article" Samples.sidebar_doc
  /\ contentRoot Samples.sidebar_doc = Ok (Some Samples.story)
  /\ Dom.tagOf Samples.story = js "main".
Proof.
  split; [|split; reflexivity].
  exists (Samples.el "article" [Samples.txt "teaser"]).
  split; [|reflexivity]. apply elem_of_documentElements, list_elem_of_In.
  cbn. do 4 right. left. reflexivity.
Qed.

(** The [main] of this document comes first, yet the [article] is the root. *)
Lemma content_root_priority_witness :
  present "article" (stripped Samples.article_doc)
  /\ exists a, firstOf (hasTag "article") (stripped Samples.article_doc) = Some a
               /\ inDocument a (stripped Samples.article_doc)
               /\ Dom.tagOf a = js "article"
               /\ contentRoot Samples.article_doc = Ok (Some a).
Proof.
  assert (Hp : present "article" (stripped Samples.article_doc)).
  { exists Samples.piece. split; [|reflexivity].
    apply elem_of_documentElements, list_elem_of_In. cbn. do 5 right. left. reflexivity. }
  split; [exact Hp|].
  exact (proj1 (proj2 (proj2 (proj2 (content_root_priority Samples.article_doc)))) Hp).
Defined.

(** ** Summarizer *)

Lemma truthy_false (s : list N) : truthy s = false <-> s = [].
Proof. by destruct s. Qed.

Lemma complete_sends (network : Request -> option Response) (r : Request) (w : World) :
  sent (snd (AISummarizer.complete network r w)) = sent w ++ [r].
Proof.
  unfold AISummarizer.complete, Host.fetch.
  destruct (network r) as [resp|]; [|reflexivity].
  destruct (negb (resp_ok resp)); [reflexivity|].
  by destruct (resp_json resp) as [[?|]|].
Qed.

(** C6.  With an empty [apiKey], [summarizeText] (both revisions) fails
    with the error "API key is required" (MissingCredential) and the world
    is as before: no request was sent.  A request is sent only when the
    key is non-empty, and then exactly one. *)
Theorem summarizeText_missing_credential
    (network : Request -> option Response) (req : SummarizeRequest) (w : World) :
  (apiKey req = [] ->
     AISummarizer.summarizeText network req w = (Err MissingCredential, w)
     /\ AISummarizer.summarizeTextWithPrompt network req w = (Err MissingCredential, w))
  /\ (sent (snd (AISummarizer.summarizeText network req w)) <> sent w
      \/ sent (snd (AISummarizer.summarizeTextWithPrompt network req w)) <> sent w ->
      apiKey req <> [])
  /\ (apiKey req <> [] ->
      (exists r, sent (snd (AISummarizer.summarizeText network req w)) = sent w ++ [r])
      /\ (exists r, sent (snd (AISummarizer.summarizeTextWithPrompt network req w))
                    = sent w ++ [r])).
Proof.
  unfold AISummarizer.summarizeText, AISummarizer.summarizeTextWithPrompt.
  split; [|split].
  - intros ->. split; reflexivity.
  - intros H Hk. rewrite Hk in H. cbn in H. tauto.
  - intros Hk. destruct (apiKey req) as [|c k]; [done|]. cbn [truthy negb].
    split; eexists; apply complete_sends.
Qed.

Lemma summarizeText_missing_credential_witness :
  AISummarizer.summarizeText Samples.server (Samples.request "") Samples.world0
  = (Err MissingCredential, Samples.world0)
  /\ AISummarizer.summarizeTextWithPrompt Samples.server (Samples.request "") Samples.world0
     = (Err MissingCredential, Samples.world0).
Proof.
  apply (proj1 (summarizeText_missing_credential
                  Samples.server (Samples.request "") Samples.world0)).
  reflexivity.
Defined.

(** ** Article store *)

Lemma elem_of_allArticles (db : Database) (a : Article) :
  a ∈ StorageService.allArticles db
  <-> articles db !! art_id a = Some (art_fields a).
Proof.
  unfold StorageService.allArticles. rewrite list_elem_of_In, in_map_iff. split.
  - intros ([k v] & <- & Hkv). cbn. by apply elem_of_map_to_list, list_elem_of_In.
  - intros H. exists (art_id a, art_fields a). split; [by destruct a|].
    by apply list_elem_of_In, elem_of_map_to_list.
Qed.

Lemma filter_none {A} (P : A -> Prop) `{forall a, Decision (P a)} (l : list A) :
  (forall a, a ∈ l -> ~ P a) -> filter P l = [].
Proof.
  induction l as [|a l IH]; [done|]. intros Hall.
  rewrite filter_cons_False by (apply Hall; by left).
  apply IH. intros b Hb. apply Hall. by right.
Qed.

Lemma filter_id_None (m : gmap (list N) ArticleFields) (id : list N) :
  m !! id = None ->
  filter (fun a => art_id a = id)
         (List.map (fun kv => mkArticle (fst kv) (snd kv)) (map_to_list m)) = [].
Proof.
  intros Hm. apply filter_none. intros a Ha%list_elem_of_In Hid.
  apply in_map_iff in Ha as ([k v] & <- & Hkv). cbn in Hid. subst k.
  apply list_elem_of_In, elem_of_map_to_list in Hkv. congruence.
Qed.

Lemma filter_true_id {A} (p : A -> bool) (l : list A) :
  (forall a, p a = true) -> List.filter p l = l.
Proof. intros H. induction l as [|a l IH]; [done|]. cbn. by rewrite H, IH. Qed.

(** C7 (as the code has it).  When [saveArticle] returns an identifier on
    an initialised store, the identifier is the one built from the clock
    reading and the random draw, no record of the store carried it before
    the call, and [getArticles] then lists exactly one record under it: the
    saved fields with that identifier.  The records stored before are still
    listed. *)
Theorem saveArticle_roundtrip (article : ArticleFields) (now : Z)
    (random36 id : list N) (st st' : Storage) :
  StorageService.saveArticle article now random36 st = (Ok id, st') ->
  opened st = true
  /\ id = StorageService.newId "article_" now random36
  /\ (forall a, a ∈ StorageService.allArticles (database st) -> art_id a <> id)
  /\ exists l, StorageService.getArticles st' = (Ok l, st')
               /\ filter (fun a => art_id a = id) l = [mkArticle id article]
               /\ (forall a, a ∈ StorageService.allArticles (database st) -> a ∈ l).
Proof.
  unfold StorageService.saveArticle.
  destruct (opened st) eqn:Hopen; [|discriminate].
  destruct (articles (database st) !! _) as [old|] eqn:Hfree; [discriminate|].
  intros [= <- <-]. split; [done|]. split; [done|]. split.
  { intros a Ha%elem_of_allArticles Hid. congruence. }
  eexists. split; [reflexivity|]. split.
  - unfold StorageService.allArticles. cbn [database articles].
    apply Permutation_singleton_r.
    rewrite (Permutation_map _ (map_to_list_insert _ _ _ Hfree)).
    cbn [List.map fst snd]. rewrite filter_cons_True by done.
    by rewrite (filter_id_None _ _ Hfree).
  - intros a Ha. apply elem_of_allArticles. apply elem_of_allArticles in Ha.
    cbn [database articles]. rewrite lookup_insert_ne; [done|]. congruence.
Qed.

Lemma saveArticle_roundtrip_witness :
  opened Samples.ready_with_data = true
  /\ js "article_1700000000000_4fzyo82mv"
     = StorageService.newId "article_" 1700000000000 Samples.draw
  /\ (forall a, a ∈ StorageService.allArticles (database Samples.ready_with_data) ->
                art_id a <> js "article_1700000000000_4fzyo82mv")
  /\ exists l,
       StorageService.getArticles
         (snd (StorageService.saveArticle (Samples.note "new") 1700000000000
                 Samples.draw Samples.ready_with_data))
       = (Ok l, snd (StorageService.saveArticle (Samples.note "new") 1700000000000
                       Samples.draw Samples.ready_with_data))
       /\ filter (fun a => art_id a = js "article_1700000000000_4fzyo82mv") l
          = [mkArticle (js "article_1700000000000_4fzyo82mv") (Samples.note "new")]
       /\ (forall a, a ∈ StorageService.allArticles (database Samples.ready_with_data) ->
                     a ∈ l).
Proof.
  apply (saveArticle_roundtrip (Samples.note "new") 1700000000000 Samples.draw
           (js "article_1700000000000_4fzyo82mv") Samples.ready_with_data).
  vm_compute. reflexivity.
Defined.

(** C7 as worded fails: an identifier returned by [saveArticle] can equal
    one that an earlier call returned.  The same clock reading and the same
    random draw build the same identifier, and once the first record is
    deleted the second [add] succeeds. *)
Lemma saveArticle_identifier_reused :
  exists id st1 st2 st3,
    StorageService.saveArticle (Samples.note "first") 1700000000000 Samples.draw
      Samples.ready_empty = (Ok id, st1)
    /\ StorageService.deleteArticle id st1 = (Ok tt, st2)
    /\ StorageService.saveArticle (Samples.note "second") 1700000000000 Samples.draw
         st2 = (Ok id, st3).
Proof.
  eexists _, _, _, _. split; [reflexivity|]. split; [reflexivity|].
  vm_compute. reflexivity.
Qed.

(** C8.  While the service holds no connection, [saveArticle],
    [getArticles], [updateArticle], [deleteArticle], [saveFeed], [getFeeds]
    and [searchArticles] fail with the error "Database not initialized"
    (NotInitialized) and return the state, stored data included, as it was. *)
Theorem uninitialized_operations_fail (st : Storage) :
  opened st = false ->
  (forall article now random36,
      StorageService.saveArticle article now random36 st = (Err NotInitialized, st))
  /\ StorageService.getArticles st = (Err NotInitialized, st)
  /\ (forall article, StorageService.updateArticle article st = (Err NotInitialized, st))
  /\ (forall id, StorageService.deleteArticle id st = (Err NotInitialized, st))
  /\ (forall feed now random36,
        StorageService.saveFeed feed now random36 st = (Err NotInitialized, st))
  /\ StorageService.getFeeds st = (Err NotInitialized, st)
  /\ (forall query, StorageService.searchArticles query st = (Err NotInitialized, st)).
Proof.
  intros Hclosed.
  unfold StorageService.saveArticle, StorageService.getArticles,
    StorageService.updateArticle, StorageService.deleteArticle,
    StorageService.saveFeed, StorageService.getFeeds, StorageService.searchArticles,
    StorageService.getArticles.
  rewrite Hclosed. repeat split.
Qed.

Lemma uninitialized_operations_fail_witness :
  StorageService.getArticles Samples.closed_with_data
  = (Err NotInitialized, Samples.closed_with_data)
  /\ StorageService.deleteArticle (js "article_1_abc") Samples.closed_with_data
     = (Err NotInitialized, Samples.closed_with_data)
  /\ StorageService.saveArticle (Samples.note "new") 5 Samples.draw Samples.closed_with_data
     = (Err NotInitialized, Samples.closed_with_data).
Proof.
  pose proof (uninitialized_operations_fail Samples.closed_with_data eq_refl)
    as (Hsave & Hget & _ & Hdel & _).
  split; [exact Hget|]. split; [apply Hdel | apply Hsave].
Defined.

(** C9.  On an initialised store, [searchArticles] with the empty query
    returns what [getArticles] returns, every stored article: the test on
    the title already holds for the empty string. *)
Theorem searchArticles_empty_query (st : Storage) :
  opened st = true ->
  StorageService.searchArticles [] st = StorageService.getArticles st
  /\ StorageService.searchArticles [] st
     = (Ok (StorageService.allArticles (database st)), st)
  /\ (forall id fields, articles (database st) !! id = Some fields ->
        mkArticle id fields ∈ StorageService.allArticles (database st)).
Proof.
  intros Hopen. unfold StorageService.searchArticles, StorageService.getArticles.
  rewrite Hopen. rewrite filter_true_id.
  - split; [done|]. split; [done|]. intros id fields H. by apply elem_of_allArticles.
  - intros a. unfold StorageService.matchesQuery. cbn [toLowerCase List.map].
    by rewrite includes_empty.
Qed.

Lemma searchArticles_empty_query_witness :
  StorageService.searchArticles [] Samples.ready_with_data
  = StorageService.getArticles Samples.ready_with_data
  /\ StorageService.searchArticles [] Samples.ready_with_data
     = (Ok (StorageService.allArticles (database Samples.ready_with_data)),
        Samples.ready_with_data)
  /\ (forall id fields,
        articles (database Samples.ready_with_data) !! id = Some fields ->
        mkArticle id fields ∈ StorageService.allArticles (database Samples.ready_with_data)).
Proof. exact (searchArticles_empty_query Samples.ready_with_data eq_refl). Defined.

(** * Further properties *)

(** ** Article store: update, delete, feeds, search *)

Lemma elem_of_allFeeds (db : Database) (f : Feed) :
  f ∈ StorageService.allFeeds db <-> feeds db !! fd_id f = Some (fd_fields f).
Proof.
  unfold StorageService.allFeeds. rewrite list_elem_of_In, in_map_iff. split.
  - intros ([k v] & <- & Hkv). cbn. by apply elem_of_map_to_list, list_elem_of_In.
  - intros H. exists (fd_id f, fd_fields f). split; [by destruct f|].
    by apply list_elem_of_In, elem_of_map_to_list.
Qed.

Lemma filter_feed_id_None (m : gmap (list N) FeedFields) (id : list N) :
  m !! id = None ->
  filter (fun f => fd_id f = id)
         (List.map (fun kv => mkFeed (fst kv) (snd kv)) (map_to_list m)) = [].
Proof.
  intros Hm. apply filter_none. intros f Hf%list_elem_of_In Hid.
  apply in_map_iff in Hf as ([k v] & <- & Hkv). cbn in Hid. subst k.
  apply list_elem_of_In, elem_of_map_to_list in Hkv. congruence.
Qed.

(** The records listed under one identifier after that key was written. *)
Lemma filter_id_insert (m : gmap (list N) ArticleFields) (id : list N)
    (fields : ArticleFields) :
  filter (fun a => art_id a = id)
         (List.map (fun kv => mkArticle (fst kv) (snd kv))
                   (map_to_list (<[id := fields]> m)))
  = [mkArticle id fields].
Proof.
  rewrite <- insert_delete_eq. apply Permutation_singleton_r.
  rewrite (Permutation_map _ (map_to_list_insert _ _ _ (lookup_delete_eq m id))).
  cbn [List.map fst snd]. rewrite filter_cons_True by done.
  by rewrite (filter_id_None _ _ (lookup_delete_eq m id)).
Qed.

(** X1.  [updateArticle] on an initialised store is an upsert: whether or
    not the identifier was stored, [getArticles] afterwards lists exactly one
    record under it, the record given; the records under other identifiers
    and the feeds are as before. *)
Theorem updateArticle_upsert (a : Article) (st : Storage) :
  opened st = true ->
  exists st',
    StorageService.updateArticle a st = (Ok tt, st')
    /\ opened st' = true
    /\ feeds (database st') = feeds (database st)
    /\ filter (fun x => art_id x = art_id a) (StorageService.allArticles (database st'))
       = [a]
    /\ (forall x, art_id x <> art_id a ->
          (x ∈ StorageService.allArticles (database st')
           <-> x ∈ StorageService.allArticles (database st))).
Proof.
  intros Hopen. unfold StorageService.updateArticle. rewrite Hopen.
  eexists. split; [reflexivity|]. split; [done|]. split; [done|]. split.
  - unfold StorageService.allArticles. cbn [database articles].
    rewrite filter_id_insert. by destruct a.
  - intros x Hx. rewrite !elem_of_allArticles. cbn [database articles].
    by rewrite lookup_insert_ne.
Qed.

Lemma updateArticle_upsert_witness :
  exists st',
    StorageService.updateArticle Cases.edited Samples.ready_with_data = (Ok tt, st')
    /\ opened st' = true
    /\ feeds (database st') = feeds (database Samples.ready_with_data)
    /\ filter (fun x => art_id x = art_id Cases.edited)
              (StorageService.allArticles (database st'))
       = [Cases.edited]
    /\ (forall x, art_id x <> art_id Cases.edited ->
          (x ∈ StorageService.allArticles (database st')
           <-> x ∈ StorageService.allArticles (database Samples.ready_with_data))).
Proof. exact (updateArticle_upsert Cases.edited Samples.ready_with_data eq_refl). Defined.

(** X2.  [deleteArticle] on an initialised store always succeeds: afterwards
    no record is listed under the identifier, the records under other
    identifiers and the feeds are as before, and deleting an identifier that
    is not stored changes nothing. *)
Theorem deleteArticle_removes (id : list N) (st : Storage) :
  opened st = true ->
  exists st',
    StorageService.deleteArticle id st = (Ok tt, st')
    /\ opened st' = true
    /\ feeds (database st') = feeds (database st)
    /\ (forall x, x ∈ StorageService.allArticles (database st') -> art_id x <> id)
    /\ (forall x, art_id x <> id ->
          (x ∈ StorageService.allArticles (database st')
           <-> x ∈ StorageService.allArticles (database st)))
    /\ (articles (database st) !! id = None -> st' = st).
Proof.
  intros Hopen. unfold StorageService.deleteArticle. rewrite Hopen.
  eexists. split; [reflexivity|]. split; [done|]. split; [done|]. split; [|split].
  - intros x Hx%elem_of_allArticles Hid. cbn [database articles] in Hx.
    rewrite <- Hid, lookup_delete_eq in Hx. discriminate.
  - intros x Hx. rewrite !elem_of_allArticles. cbn [database articles].
    by rewrite lookup_delete_ne.
  - intros Hnone. rewrite delete_id by done.
    destruct st as [o [arts fds]]. cbn in *. by subst o.
Qed.

Lemma deleteArticle_removes_witness :
  exists st',
    StorageService.deleteArticle (js "article_1_abc") Samples.ready_with_data = (Ok tt, st')
    /\ opened st' = true
    /\ feeds (database st') = feeds (database Samples.ready_with_data)
    /\ (forall x, x ∈ StorageService.allArticles (database st') ->
                  art_id x <> js "article_1_abc")
    /\ (forall x, art_id x <> js "article_1_abc" ->
          (x ∈ StorageService.allArticles (database st')
           <-> x ∈ StorageService.allArticles (database Samples.ready_with_data)))
    /\ (articles (database Samples.ready_with_data) !! js "article_1_abc" = None ->
        st' = Samples.ready_with_data).
Proof.
  exact (deleteArticle_removes (js "article_1_abc") Samples.ready_with_data eq_refl).
Defined.

Lemma saveArticle_keeps_records (article : ArticleFields) (now : Z)
    (random36 : list N) (st : Storage) (id : list N) (fields : ArticleFields) :
  articles (database st) !! id = Some fields ->
  articles (database (snd (StorageService.saveArticle article now random36 st))) !! id
  = Some fields.
Proof.
  intros Hf. unfold StorageService.saveArticle.
  destruct (opened st); [|done].
  destruct (articles (database st) !! StorageService.newId "article_" now random36)
    eqn:Hid; [done|].
  cbn [snd database articles]. rewrite lookup_insert_ne; [done | congruence].
Qed.

(** X3.  [saveArticle] only ever adds: whatever its outcome, every record
    stored before is stored unchanged afterwards and the feeds are untouched.
    When the identifier built from the clock reading and the random draw is
    already taken, the call fails with a [ConstraintError] and the state is
    as before. *)
Theorem saveArticle_only_adds (article : ArticleFields) (now : Z)
    (random36 : list N) (st : Storage) :
  (forall id fields,
      articles (database st) !! id = Some fields ->
      articles (database (snd (StorageService.saveArticle article now random36 st))) !! id
      = Some fields)
  /\ feeds (database (snd (StorageService.saveArticle article now random36 st)))
     = feeds (database st)
  /\ (opened st = true ->
      is_Some (articles (database st) !! StorageService.newId "article_" now random36) ->
      StorageService.saveArticle article now random36 st = (Err ConstraintError, st)).
Proof.
  unfold StorageService.saveArticle.
  destruct (opened st) eqn:Hopen; [|by repeat split].
  destruct (articles (database st) !! _) as [old|] eqn:Hid.
  - by repeat split.
  - split; [|split; [done | by intros _ [? [=]]]].
    intros id fields Hf. cbn [snd database articles].
    rewrite lookup_insert_ne; [done | congruence].
Qed.

Lemma saveArticle_only_adds_witness :
  StorageService.saveArticle (Samples.note "again") 1 (js "0.abc") Samples.ready_with_data
  = (Err ConstraintError, Samples.ready_with_data).
Proof.
  apply (proj2 (proj2 (saveArticle_only_adds (Samples.note "again") 1 (js "0.abc")
                         Samples.ready_with_data))); [reflexivity|].
  vm_compute. eauto.
Defined.

(** X4.  [saveFeed] then [getFeeds]: when [saveFeed] returns an identifier,
    it is the one built with the prefix [feed_], it was not stored before,
    [getFeeds] then lists exactly one record under it, the saved fields, keeps
    the feeds stored before, and the articles are untouched. *)
Theorem saveFeed_roundtrip (feed : FeedFields) (now : Z)
    (random36 id : list N) (st st' : Storage) :
  StorageService.saveFeed feed now random36 st = (Ok id, st') ->
  id = StorageService.newId "feed_" now random36
  /\ feeds (database st) !! id = None
  /\ articles (database st') = articles (database st)
  /\ exists l, StorageService.getFeeds st' = (Ok l, st')
               /\ filter (fun f => fd_id f = id) l = [mkFeed id feed]
               /\ (forall f, f ∈ StorageService.allFeeds (database st) -> f ∈ l).
Proof.
  unfold StorageService.saveFeed.
  destruct (opened st) eqn:Hopen; [|discriminate].
  destruct (feeds (database st) !! _) as [old|] eqn:Hfree; [discriminate|].
  intros [= <- <-]. split; [done|]. split; [done|]. split; [done|].
  eexists. split; [reflexivity|]. split.
  - unfold StorageService.allFeeds. cbn [database feeds].
    apply Permutation_singleton_r.
    rewrite (Permutation_map _ (map_to_list_insert _ _ _ Hfree)).
    cbn [List.map fst snd]. rewrite filter_cons_True by done.
    by rewrite (filter_feed_id_None _ _ Hfree).
  - intros f Hf. apply elem_of_allFeeds. apply elem_of_allFeeds in Hf.
    cbn [database feeds]. rewrite lookup_insert_ne; [done|]. congruence.
Qed.

Lemma saveFeed_roundtrip_witness :
  js "feed_1700000000000_4fzyo82mv" = StorageService.newId "feed_" 1700000000000 Samples.draw
  /\ feeds (database Samples.ready_with_data) !! js "feed_1700000000000_4fzyo82mv" = None
  /\ articles (database (snd (StorageService.saveFeed Samples.news 1700000000000
                                Samples.draw Samples.ready_with_data)))
     = articles (database Samples.ready_with_data)
  /\ exists l,
       StorageService.getFeeds
         (snd (StorageService.saveFeed Samples.news 1700000000000 Samples.draw
                 Samples.ready_with_data))
       = (Ok l, snd (StorageService.saveFeed Samples.news 1700000000000 Samples.draw
                       Samples.ready_with_data))
       /\ filter (fun f => fd_id f = js "feed_1700000000000_4fzyo82mv") l
          = [mkFeed (js "feed_1700000000000_4fzyo82mv") Samples.news]
       /\ (forall f, f ∈ StorageService.allFeeds (database Samples.ready_with_data) -> f ∈ l).
Proof.
  apply (saveFeed_roundtrip Samples.news 1700000000000 Samples.draw
           (js "feed_1700000000000_4fzyo82mv") Samples.ready_with_data).
  vm_compute. reflexivity.
Defined.







Example searchArticles_kept :
  fst (StorageService.searchArticles (js "KEPT") Samples.ready_with_data)
  = Ok [Cases.kept]
  /\ fst (StorageService.searchArticles (js "absent") Samples.ready_with_data) = Ok [].
Proof. split; vm_compute; reflexivity. Qed.

(** ** Feed parser: fetching, trimmed and non-empty fields *)

(** X6.  [fetchAndParse] always yields a feed.  It is the parsed feed when
    the response arrives, a [channel] or [feed] is present and every entry
    has a non-empty [author] text; otherwise (no response, no container, or
    an entry without author text, for which [parseRSS] throws) it is the
    demo feed, whose link is the requested URL and which has three items. *)
Theorem fetchAndParse_total (parseFromString : list N -> document)
    (response : option (list N)) (url : list N) (t1 t2 t3 : Z) :
  (forall text channel,
      response = Some text ->
      container (parseFromString text) = Some channel ->
      (forall e, e ∈ entries (parseFromString text) -> fieldText e "author" <> []) ->
      RSSFetch.fetchAndParse parseFromString response url t1 t2 t3
      = feedOf channel (List.map itemOf (entries (parseFromString text))))
  /\ (response = None
      \/ (exists text, response = Some text
                       /\ (container (parseFromString text) = None
                           \/ exists e, e ∈ entries (parseFromString text)
                                        /\ fieldText e "author" = [])) ->
      RSSFetch.fetchAndParse parseFromString response url t1 t2 t3
      = RSSFetch.getDemoFeed url t1 t2 t3)
  /\ feed_link (RSSFetch.getDemoFeed url t1 t2 t3) = url
  /\ length (items (RSSFetch.getDemoFeed url t1 t2 t3)) = 3%nat.
Proof.
  split; [|split; [|split; reflexivity]].
  - intros text channel -> Hc Hall. unfold RSSFetch.fetchAndParse.
    by rewrite (parseRSS_all_authors _ _ Hc Hall).
  - intros [->|(text & -> & Hbad)]; [reflexivity|]. unfold RSSFetch.fetchAndParse.
    destruct Hbad as [Hnone|(e & He & Ha)].
    + by rewrite parseRSS_cases, Hnone.
    + destruct (container (parseFromString text)) as [channel|] eqn:Hc.
      * rewrite (parseRSS_entry_without_author _ e); [done | congruence | done | done].
      * by rewrite parseRSS_cases, Hc.
Qed.

(** A feed whose one item has no [author] is replaced by the demo feed. *)
Lemma fetchAndParse_total_witness :
  RSSFetch.fetchAndParse (fun _ => Samples.rss_no_author) (Some (js "<rss/>"))
    (js "https://example.com/rss") 0 0 0
  = RSSFetch.getDemoFeed (js "https://example.com/rss") 0 0 0.
Proof.
  apply (proj1 (proj2 (fetchAndParse_total (fun _ => Samples.rss_no_author)
                         (Some (js "<rss/>")) (js "https://example.com/rss") 0 0 0))).
  right. exists (js "<rss/>"). split; [reflexivity|]. right.
  exists (Samples.el "item" [Samples.el "title" [Samples.txt "A"]]).
  split; [|reflexivity]. apply list_elem_of_In. cbn. left. reflexivity.
Defined.

Lemma trimStart_first (s : list N) (c : N) (rest : list N) :
  trimStart s = c :: rest -> isWhiteSpace c = false.
Proof.
  induction s as [|d s IH]; [done|]. cbn [trimStart].
  destruct (isWhiteSpace d) eqn:Hd; [done|]. by intros [= <- _].
Qed.

Lemma trimStart_suffix (s : list N) : exists pre, s = pre ++ trimStart s.
Proof.
  induction s as [|d s [pre IH]]; [by exists []|]. cbn [trimStart].
  destruct (isWhiteSpace d); [|by exists []].
  exists (d :: pre). cbn. by rewrite <- IH.
Qed.

Lemma trimEnd_last (s front : list N) (c : N) :
  trimEnd s = front ++ [c] -> isWhiteSpace c = false.
Proof.
  unfold trimEnd. intros H. apply (f_equal (@rev N)) in H.
  rewrite rev_involutive, rev_app_distr in H. cbn in H.
  by eapply trimStart_first.
Qed.

Lemma trimEnd_prefix (s : list N) : exists post, s = trimEnd s ++ post.
Proof.
  destruct (trimStart_suffix (rev s)) as [pre H]. exists (rev pre).
  unfold trimEnd. by rewrite <- rev_app_distr, <- H, rev_involutive.
Qed.

(** [trim] leaves no white space at either end. *)
Lemma trim_noOuterSpace (s : list N) : noOuterSpace (trim s).
Proof.
  unfold trim. split.
  - intros c rest H. destruct (trimEnd_prefix (trimStart s)) as [post Hp].
    rewrite H in Hp. by eapply trimStart_first.
  - intros front c H. by eapply trimEnd_last.
Qed.

Lemma nil_noOuterSpace : noOuterSpace [].
Proof. split; [done|]. intros front c H. by destruct front. Qed.

Lemma fieldText_noOuterSpace (item : node) (name : string) :
  noOuterSpace (fieldText item name).
Proof.
  unfold fieldText. destruct (List.find _ _); [apply trim_noOuterSpace|].
  apply nil_noOuterSpace.
Qed.

Lemma firstNonEmpty_noOuterSpace (l : list (list N)) (dflt : list N) :
  Forall noOuterSpace l -> noOuterSpace dflt -> noOuterSpace (firstNonEmpty l dflt).
Proof.
  induction 1 as [|c l Hc _ IH]; intros Hd; [done|]. cbn.
  destruct (truthy c); [done | by apply IH].
Qed.

Lemma literal_noOuterSpace (s : list N) :
  isWhiteSpace (default 0 (head s)) = false ->
  isWhiteSpace (default 0 (head (rev s))) = false ->
  noOuterSpace s.
Proof.
  intros Hh Hl. split.
  - by intros c rest ->.
  - intros front c ->. by rewrite rev_app_distr in Hl.
Qed.

Lemma itemOf_noOuterSpace (item : node) : Forall noOuterSpace (itemTexts (itemOf item)).
Proof.
  unfold itemTexts, itemOf. cbn [item_title item_description item_pubDate item_author item_guid].
  repeat apply Forall_cons_2; [| | | | |constructor];
    repeat first [ apply fieldText_noOuterSpace
                 | apply nil_noOuterSpace
                 | apply firstNonEmpty_noOuterSpace
                 | apply Forall_cons_2
                 | apply Forall_nil_2
                 | by apply literal_noOuterSpace ].
Qed.

(** X7.  In a feed that [parseRSS] returns, the title, description and
    link of the feed and the title, description, pubDate, author and guid of
    every item carry no white space at either end.  (The link of an item is
    left out: when it comes from an [href] attribute it is not trimmed.) *)
Theorem parseRSS_fields_trimmed (doc : document) (feed : RSSFeed) :
  RSSParser.parseRSS doc = Ok feed ->
  noOuterSpace (feed_title feed)
  /\ noOuterSpace (feed_description feed)
  /\ noOuterSpace (feed_link feed)
  /\ Forall (fun it => Forall noOuterSpace (itemTexts it)) (items feed).
Proof.
  intros (channel & _ & _ & ->)%parseRSS_Ok_iff. unfold feedOf.
  cbn [feed_title feed_description feed_link items].
  split; [|split; [|split]].
  - apply firstNonEmpty_noOuterSpace; [|by apply literal_noOuterSpace].
    repeat (apply Forall_cons_2; [apply fieldText_noOuterSpace|]). apply Forall_nil_2.
  - apply firstNonEmpty_noOuterSpace; [|apply nil_noOuterSpace].
    repeat (apply Forall_cons_2; [apply fieldText_noOuterSpace|]). apply Forall_nil_2.
  - apply firstNonEmpty_noOuterSpace; [|apply nil_noOuterSpace].
    repeat (apply Forall_cons_2; [apply fieldText_noOuterSpace|]). apply Forall_nil_2.
  - apply Forall_forall. intros it Hit%list_elem_of_In.
    apply in_map_iff in Hit as (e & <- & _). apply itemOf_noOuterSpace.
Qed.

Lemma parseRSS_fields_trimmed_witness :
  noOuterSpace (js "T") /\ noOuterSpace [] /\ noOuterSpace []
  /\ Forall (fun it => Forall noOuterSpace (itemTexts it))
            [mkRSSItem (js "A") [] (js "s") [] (js "Ann") (js "g1");
             mkRSSItem (js "Untitled") [] (js "t") [] (js "Bob") []].
Proof.
  exact (parseRSS_fields_trimmed Samples.rss_with_author
           (mkRSSFeed (js "T") [] []
              [mkRSSItem (js "A") [] (js "s") [] (js "Ann") (js "g1");
               mkRSSItem (js "Untitled") [] (js "t") [] (js "Bob") []])
           eq_refl).
Defined.

Lemma firstNonEmpty_nonempty (l : list (list N)) (dflt : list N) :
  dflt <> [] -> firstNonEmpty l dflt <> [].
Proof.
  intros Hd. induction l as [|c l IH]; [done|]. cbn.
  destruct c; [done | discriminate].
Qed.

(** X8.  In a feed that [parseRSS] returns, the feed title and the title
    of every item are non-empty (the defaults "Unknown Feed" and "Untitled"
    stand in), and so is the author of every item: an entry without author
    text makes [parseRSS] throw, so no returned item lacks one. *)
Theorem parseRSS_titles_authors_nonempty (doc : document) (feed : RSSFeed) :
  RSSParser.parseRSS doc = Ok feed ->
  feed_title feed <> []
  /\ Forall (fun it => item_title it <> [] /\ item_author it <> []) (items feed)
  /\ length (items feed) = length (entries doc).
Proof.
  intros (channel & _ & Hall & ->)%parseRSS_Ok_iff. unfold feedOf. cbn [feed_title items].
  split; [by apply firstNonEmpty_nonempty|]. split; [|by rewrite length_map].
  apply Forall_forall. intros it Hit%list_elem_of_In.
  apply in_map_iff in Hit as (e & <- & He). split.
  - by apply firstNonEmpty_nonempty.
  - apply Hall. by apply list_elem_of_In.
Qed.

Lemma parseRSS_titles_authors_nonempty_witness :
  js "T" <> []
  /\ Forall (fun it => item_title it <> [] /\ item_author it <> [])
            [mkRSSItem (js "A") [] (js "s") [] (js "Ann") (js "g1");
             mkRSSItem (js "Untitled") [] (js "t") [] (js "Bob") []]
  /\ 2%nat = length (entries Samples.rss_with_author).
Proof.
  exact (parseRSS_titles_authors_nonempty Samples.rss_with_author
           (mkRSSFeed (js "T") [] []
              [mkRSSItem (js "A") [] (js "s") [] (js "Ann") (js "g1");
               mkRSSItem (js "Untitled") [] (js "t") [] (js "Bob") []])
           eq_refl).
Defined.

(** ** Markdown converter: totality, composition, removal pass, fetching *)

Lemma htmlToMarkdown_Element (q : bool) t a (cs : list node) :
  URLToMarkdownConverter.htmlToMarkdown q (Element t a cs) = childrenMarkdown q cs.
Proof.
  cbn [URLToMarkdownConverter.htmlToMarkdown].
  induction cs as [|c cs IH]; [done|]. cbn [childrenMarkdown]. rewrite <- IH.
  by destruct c.
Qed.

Lemma convertElement_Ok (q : bool) (el : node) (r : result (list N)) :
  URLToMarkdownConverter.convertElement q el = Some r -> exists md, r = Ok md.
Proof.
  unfold URLToMarkdownConverter.convertElement.
  rewrite !processListItems_eq. cbn [mbind result_bind mret result_ret].
  repeat match goal with
         | |- context [if ?c then _ else _] => destruct c
         end;
    intros [= <-]; eauto.
Qed.

(** [htmlToMarkdown] returns for every node. *)
Lemma htmlToMarkdown_total (q : bool) (el : node) :
  exists md, URLToMarkdownConverter.htmlToMarkdown q el = Ok md.
Proof.
  induction el as [d|d|t a cs IH] using node_tree_ind; [by exists [] | by exists [] |].
  rewrite htmlToMarkdown_Element.
  induction IH as [|c cs Hc _ IHcs]; [by exists []|].
  cbn [childrenMarkdown]. destruct IHcs as [more ->].
  assert (exists piece, pieceOf q c = Ok piece) as [piece ->].
  { destruct c as [d|d|t' a' cs']; [by eexists | by eexists |]. unfold pieceOf.
    destruct (URLToMarkdownConverter.convertElement q _) as [r|] eqn:Hr; [|done].
    by apply convertElement_Ok in Hr. }
  by eexists.
Qed.

Lemma childrenMarkdown_total (q : bool) (l : list node) :
  exists md, childrenMarkdown q l = Ok md.
Proof.
  rewrite <- (htmlToMarkdown_Element q [] [] l). apply htmlToMarkdown_total.
Qed.

(** X9.  [htmlToMarkdown] never throws, so [convertHTMLToMarkdown] fails
    in one case only: when, after the removal pass, no content selector
    matches and the document has no body (the body itself was removed, or
    the document has none); the error is then the [TypeError] of reading
    [childNodes] of null. *)
Theorem convert_fails_only_without_root (doc : document) (url : list N)
    (w : World) (e : exn) :
  (forall q el, exists md, URLToMarkdownConverter.htmlToMarkdown q el = Ok md)
  /\ (fst (URLToMarkdownConverter.convertHTMLToMarkdown doc url w) = Err e
      <-> priorityRoot (stripped doc) = None /\ e = TypeError).
Proof.
  split; [apply htmlToMarkdown_total|].
  unfold URLToMarkdownConverter.convertHTMLToMarkdown. cbn [fst].
  unfold docQuerySelector, URLToMarkdownConverter.metaNamed.
  rewrite selectFirst_tag. cbn [mbind result_bind].
  rewrite removeEach_stripped. cbn [mbind result_bind].
  rewrite mainContent_priority. cbn [mbind result_bind].
  destruct (priorityRoot (stripped doc)) as [el|].
  - destruct (htmlToMarkdown_total (quirks (stripped doc)) el) as [md ->].
    cbn. split; [done | by intros [? _]].
  - split; [by intros [= <-] | by intros [_ ->]].
Qed.

Example convert_body_removed :
  fst (URLToMarkdownConverter.convertHTMLToMarkdown Pages.body_is_sidebar [] Samples.world0)
  = Err TypeError.
Proof. reflexivity. Qed.

Lemma childrenMarkdown_app (q : bool) (l1 l2 : list node) :
  childrenMarkdown q (l1 ++ l2)
  = (m1 ← childrenMarkdown q l1; m2 ← childrenMarkdown q l2; mret (m1 ++ m2)).
Proof.
  induction l1 as [|c l1 IH]; cbn [app childrenMarkdown].
  - cbn. by destruct (childrenMarkdown q l2).
  - rewrite IH. destruct (pieceOf q c) as [piece|]; [|done]. cbn.
    destruct (childrenMarkdown q l1) as [m1|]; [|done]. cbn.
    destruct (childrenMarkdown q l2) as [m2|]; [|done]. cbn.
    by rewrite app_assoc.
Qed.

Lemma convertElement_None (q : bool) (el : node) :
  URLToMarkdownConverter.convertElement q el = None <-> untabled el.
Proof.
  unfold untabled, tableTags. split.
  - unfold URLToMarkdownConverter.convertElement.
    repeat match goal with
           | |- context [URLToMarkdownConverter.tagNameIs el ?n] =>
               destruct (URLToMarkdownConverter.tagNameIs el n) eqn:?;
               cbn [orb]; [discriminate|]
           end.
    intros _. repeat (apply Forall_cons_2; [done|]). apply Forall_nil_2.
  - intros H. repeat (apply Forall_cons_1 in H as [? H]).
    unfold URLToMarkdownConverter.convertElement.
    repeat match goal with
           | Hn : URLToMarkdownConverter.tagNameIs el _ = false |- _ =>
               rewrite Hn; clear Hn
           end.
    reflexivity.
Qed.

(** X10.  The markdown of an element is the concatenation of what its
    child nodes contribute, in order, whatever the element's own name and
    attributes; and an element without an entry in the table ([div],
    [span], [section], ...) contributes what its children contribute, so
    wrapping a run of nodes in such an element does not change the
    markdown. *)
Theorem htmlToMarkdown_wrapper_transparent (q : bool) t a t' a'
    (before inner after : list node) :
  untabled (Element t' a' inner) ->
  URLToMarkdownConverter.htmlToMarkdown q (Element t a (before ++ Element t' a' inner :: after))
  = URLToMarkdownConverter.htmlToMarkdown q (Element t a (before ++ inner ++ after))
  /\ exists m1 m2 m3,
       URLToMarkdownConverter.htmlToMarkdown q (Element t a before) = Ok m1
       /\ URLToMarkdownConverter.htmlToMarkdown q (Element t' a' inner) = Ok m2
       /\ URLToMarkdownConverter.htmlToMarkdown q (Element t a after) = Ok m3
       /\ URLToMarkdownConverter.htmlToMarkdown q
            (Element t a (before ++ Element t' a' inner :: after))
          = Ok (m1 ++ m2 ++ m3).
Proof.
  intros Hplain%(convertElement_None q). rewrite !htmlToMarkdown_Element.
  destruct (childrenMarkdown_total q before) as [m1 H1].
  destruct (childrenMarkdown_total q inner) as [m2 H2].
  destruct (childrenMarkdown_total q after) as [m3 H3].
  assert (Hwrapped : childrenMarkdown q (before ++ Element t' a' inner :: after)
                     = Ok (m1 ++ m2 ++ m3)).
  { rewrite childrenMarkdown_app, H1. cbn [mbind result_bind childrenMarkdown pieceOf].
    rewrite Hplain, htmlToMarkdown_Element, H2, H3. reflexivity. }
  split; [|by exists m1, m2, m3].
  rewrite Hwrapped, !childrenMarkdown_app, H1, H2, H3. reflexivity.
Qed.

Lemma htmlToMarkdown_wrapper_transparent_witness :
  URLToMarkdownConverter.htmlToMarkdown true
    (Element (js "body") [] ([Samples.txt "a"]
       ++ Element (js "div") [] [Samples.el "em" [Samples.txt "b"]; Samples.txt "c"]
          :: [Samples.el "p" [Samples.txt "d"]]))
  = URLToMarkdownConverter.htmlToMarkdown true
      (Element (js "body") [] ([Samples.txt "a"]
         ++ [Samples.el "em" [Samples.txt "b"]; Samples.txt "c"]
         ++ [Samples.el "p" [Samples.txt "d"]])).
Proof.
  apply (htmlToMarkdown_wrapper_transparent true (js "body") [] (js "div") []
           [Samples.txt "a"] [Samples.el "em" [Samples.txt "b"]; Samples.txt "c"]
           [Samples.el "p" [Samples.txt "d"]]).
  unfold untabled, tableTags. repeat (apply Forall_cons_2; [reflexivity|]).
  apply Forall_nil_2.
Defined.

Section Unchanged.

Variable gone : node -> bool.
Hypothesis gone_element : forall c, Dom.isElement c = false -> gone c = false.

Lemma pruneAll_unchanged_of (l : list node) :
  Forall (fun n => (forall e, e ∈ Dom.inclusiveElements n -> gone e = false) ->
                   URLToMarkdownConverter.prune gone n = n) l ->
  (forall e, e ∈ flat_map Dom.inclusiveElements l -> gone e = false) ->
  URLToMarkdownConverter.pruneAll gone l = l.
Proof.
  unfold URLToMarkdownConverter.pruneAll.
  induction 1 as [|c cs Hc _ IH]; intros Hl; [done|]. cbn [List.filter].
  assert (gone c = false) as ->.
  { destruct (Dom.isElement c) eqn:Hc'; [|by apply gone_element].
    apply Hl. cbn [flat_map]. apply elem_of_app. left.
    destruct c; try done. cbn. by left. }
  cbn [negb List.map]. f_equal.
  - apply Hc. intros e He. apply Hl. cbn [flat_map]. apply elem_of_app. by left.
  - apply IH. intros e He. apply Hl. cbn [flat_map]. apply elem_of_app. by right.
Qed.

Lemma prune_unchanged (n : node) :
  (forall e, e ∈ Dom.inclusiveElements n -> gone e = false) ->
  URLToMarkdownConverter.prune gone n = n.
Proof.
  induction n as [d|d|t a cs IH] using node_tree_ind; [done|done|].
  intros Hel. rewrite prune_Element. f_equal. apply pruneAll_unchanged_of; [done|].
  intros e He. apply Hel. cbn [Dom.inclusiveElements]. by right.
Qed.

(** Pruning a forest in which nothing is to go leaves it as it is. *)
Lemma pruneAll_unchanged (l : list node) :
  (forall e, e ∈ flat_map Dom.inclusiveElements l -> gone e = false) ->
  URLToMarkdownConverter.pruneAll gone l = l.
Proof.
  apply pruneAll_unchanged_of, Forall_forall. intros n _. apply prune_unchanged.
Qed.

End Unchanged.

Lemma matches_not_element (q : bool) (sel : list (list simple)) (c : node) :
  Dom.isElement c = false -> Selector.matches q sel c = false.
Proof. unfold Selector.matches. by intros ->. Qed.

Lemma foldl_stripOne_unchanged (sels : list (list (list simple))) (doc : document) :
  (forall sel e, sel ∈ sels -> e ∈ Dom.documentElements doc ->
                 Selector.matches (quirks doc) sel e = false) ->
  foldl stripOne doc sels = doc.
Proof.
  induction sels as [|s sels IH]; intros Hclean; [done|]. cbn [foldl].
  assert (stripOne doc s = doc) as ->.
  { unfold stripOne. destruct doc as [q ns]. cbn [quirks nodes] in *. f_equal.
    apply pruneAll_unchanged; [apply matches_not_element|].
    intros e He. apply (Hclean s e); [by left | done]. }
  apply IH. intros sel e Hsel. apply Hclean. by right.
Qed.

(** X11.  The removal pass is complete and idempotent: in the document it
    leaves, no element matches a selector of the removal list, wherever the
    element stood in the input, and running the pass on its own result
    changes nothing; the document mode is kept. *)
Theorem removal_pass_idempotent (doc : document) :
  URLToMarkdownConverter.removeEach (stripped doc) URLToMarkdownConverter.elementsToRemove
  = Ok (stripped doc)
  /\ stripped (stripped doc) = stripped doc
  /\ quirks (stripped doc) = quirks doc
  /\ (forall sel e, sel ∈ URLToMarkdownConverter.elementsToRemove ->
                    inDocument e (stripped doc) ->
                    Selector.matches (quirks doc) sel e = false).
Proof.
  assert (Hq : quirks (stripped doc) = quirks doc) by apply quirks_foldl_stripOne.
  assert (Hidem : stripped (stripped doc) = stripped doc).
  { apply foldl_stripOne_unchanged. intros sel e Hsel He. rewrite Hq.
    apply stripped_clean; [done | by apply elem_of_documentElements]. }
  split; [by rewrite removeEach_stripped, Hidem|]. split; [done|]. split; [done|].
  intros sel e. apply stripped_clean.
Qed.

Example removal_pass_sidebar :
  Dom.documentElements (stripped Samples.sidebar_doc)
  = [Samples.el "html" [Samples.el "head" []; Samples.el "body" [Samples.story]];
     Samples.el "head" [];
     Samples.el "body" [Samples.story];
     Samples.story;
     Samples.el "p" [Samples.txt "Story"]].
Proof. reflexivity. Qed.





(** ** Summarizer: results, prompts, settings *)




(** The content of the default prompt is the prompt of the first revision. *)
Lemma default_prompt_content :
  prompt_content <$> head Settings.getDefaultPrompts = Some AISummarizer.DEFAULT_PROMPT.
Proof. reflexivity. Qed.

(** X14.  The revision with selectable prompts behaves as the first
    revision when no prompt, the empty prompt or the default prompt is
    given.  That is the case for the prompt the component selects on fresh
    settings: the selected identifier is then "default", which always
    resolves to the built-in default prompt, whatever custom prompts exist
    (the built-in prompts come first in the list searched). *)
Theorem summarizeText_default_prompt_compatible
    (network : Request -> option Response) (req : SummarizeRequest) (w : World)
    (custom : list CustomPrompt) :
  (prompt req = None \/ prompt req = Some [] \/ prompt req = Some AISummarizer.DEFAULT_PROMPT ->
   AISummarizer.summarizeTextWithPrompt network req w
   = AISummarizer.summarizeText network req w)
  /\ Settings.promptFor custom (Settings.getSelectedPrompt ∅)
     = Some AISummarizer.DEFAULT_PROMPT
  /\ AISummarizer.summarizeTextWithPrompt network
       (mkSummarizeRequest (sr_content req) (apiKey req) (sr_model req)
          (Settings.promptFor custom (Settings.getSelectedPrompt ∅))) w
     = AISummarizer.summarizeText network req w.
Proof.
  assert (Hsel : Settings.promptFor custom (Settings.getSelectedPrompt ∅)
                 = Some AISummarizer.DEFAULT_PROMPT) by reflexivity.
  split; [|split; [exact Hsel|]].
  - unfold AISummarizer.summarizeTextWithPrompt, AISummarizer.summarizeText.
    by intros [->|[->| ->]].
  - rewrite Hsel. reflexivity.
Qed.

Lemma summarizeText_default_prompt_compatible_witness :
  AISummarizer.summarizeTextWithPrompt Samples.server (Samples.request "sk-1") Samples.world0
  = AISummarizer.summarizeText Samples.server (Samples.request "sk-1") Samples.world0.
Proof.
  apply (proj1 (summarizeText_default_prompt_compatible Samples.server
                  (Samples.request "sk-1") Samples.world0 [])).
  left. reflexivity.
Defined.

Lemma getItemOr_setItem (key key' : string) (v dflt : list N)
    (ls : gmap (list N) (list N)) :
  Settings.getItemOr key' dflt (Settings.setItem key v ls)
  = if decide (js key = js key')
    then (if truthy v then v else dflt)
    else Settings.getItemOr key' dflt ls.
Proof.
  unfold Settings.getItemOr, Settings.setItem. rewrite lookup_insert.
  by destruct (decide (js key = js key')).
Qed.

(** X15.  The settings read back what was saved, each under its own key:
    a saved API key, model or prompt identifier is returned by the matching
    getter and leaves the other two settings untouched; a missing or empty
    value reads as the default (no key, the model
    "anthropic/claude-3-haiku", the prompt "default"), so the getters for
    model and prompt never return the empty string, and the default model
    is one of the available models. *)
Theorem settings_roundtrip (v : list N) (ls : gmap (list N) (list N)) :
  Settings.getApiKey (Settings.saveApiKey v ls) = v
  /\ Settings.getPreferredModel (Settings.savePreferredModel v ls)
     = (if truthy v then v else js "anthropic/claude-3-haiku")
  /\ Settings.getSelectedPrompt (Settings.saveSelectedPrompt v ls)
     = (if truthy v then v else js "default")
  /\ Settings.getPreferredModel (Settings.saveApiKey v ls) = Settings.getPreferredModel ls
  /\ Settings.getSelectedPrompt (Settings.saveApiKey v ls) = Settings.getSelectedPrompt ls
  /\ Settings.getApiKey (Settings.savePreferredModel v ls) = Settings.getApiKey ls
  /\ Settings.getSelectedPrompt (Settings.savePreferredModel v ls)
     = Settings.getSelectedPrompt ls
  /\ Settings.getApiKey (Settings.saveSelectedPrompt v ls) = Settings.getApiKey ls
  /\ Settings.getPreferredModel (Settings.saveSelectedPrompt v ls)
     = Settings.getPreferredModel ls
  /\ Settings.getPreferredModel ls <> [] /\ Settings.getSelectedPrompt ls <> []
  /\ Settings.getPreferredModel ∅ ∈ (Settings.getAvailableModels).*1.
Proof.
  unfold Settings.getApiKey, Settings.saveApiKey, Settings.getPreferredModel,
    Settings.savePreferredModel, Settings.getSelectedPrompt, Settings.saveSelectedPrompt.
  rewrite !getItemOr_setItem.
  repeat match goal with
         | |- context [decide (js ?a = js ?b)] =>
             let d := eval vm_compute in (bool_decide (js a = js b)) in
             match d with
             | true => rewrite (decide_True (P := js a = js b)) by reflexivity
             | false => rewrite (decide_False (P := js a = js b)) by discriminate
             end
         end.
  split; [by destruct v|]. do 8 (split; [done|]).
  split; [|split].
  - unfold Settings.getItemOr. destruct (ls !! _) as [[|c x]|]; discriminate.
  - unfold Settings.getItemOr. destruct (ls !! _) as [[|c x]|]; discriminate.
  - cbn. left.
Qed.

(** ** View logic *)

Lemma includesItem_true (l : list (list N)) (x : list N) :
  Views.includesItem l x = true <-> x ∈ l.
Proof.
  unfold Views.includesItem. rewrite existsb_exists. split.
  - intros (y & Hy & ->%eqb_eq). by apply list_elem_of_In.
  - intros H. exists x. split; [by apply list_elem_of_In | apply eqb_refl].
Qed.

Lemma includesItem_false (l : list (list N)) (x : list N) :
  Views.includesItem l x = false <-> x ∉ l.
Proof.
  rewrite <- includesItem_true. by destruct (Views.includesItem l x).
Qed.

Lemma elem_of_without (x y : list N) (l : list (list N)) :
  y ∈ Views.without x l <-> y ∈ l /\ y <> x.
Proof.
  unfold Views.without. rewrite list_elem_of_In, filter_In, <- list_elem_of_In.
  rewrite negb_true_iff. split; intros [? H]; (split; [done|]).
  - intros ->. by rewrite eqb_refl in H.
  - destruct (eqb y x) eqn:E; [|done]. by apply eqb_eq in E.
Qed.

Lemma NoDup_without (x : list N) (l : list (list N)) :
  NoDup l -> NoDup (Views.without x l).
Proof. intros H. apply NoDup_ListNoDup, List.NoDup_filter. by apply NoDup_ListNoDup. Qed.

Lemma NoDup_snoc (l : list (list N)) (x : list N) :
  NoDup l -> x ∉ l -> NoDup (l ++ [x]).
Proof.
  intros Hl Hx. apply NoDup_app. split; [done|]. split; [|apply NoDup_singleton].
  intros y Hy ->%list_elem_of_singleton. done.
Qed.

Lemma filter_true_id_on {A} (p : A -> bool) (l : list A) :
  (forall a, a ∈ l -> p a = true) -> List.filter p l = l.
Proof.
  induction l as [|a l IH]; intros H; [done|]. cbn.
  rewrite (H a) by (by left). f_equal. apply IH. intros b Hb. apply H. by right.
Qed.

Lemma without_snoc (x : list N) (l : list (list N)) :
  x ∉ l -> Views.without x (l ++ [x]) = l.
Proof.
  intros Hx. unfold Views.without. rewrite List.filter_app. cbn [List.filter].
  rewrite eqb_refl. cbn [negb]. rewrite app_nil_r.
  apply filter_true_id_on. intros t Ht. apply negb_true_iff.
  destruct (eqb t x) eqn:E; [|done]. apply eqb_eq in E. by subst.
Qed.

(** X16.  Toggling a tag in the selection flips its membership and leaves
    the membership of every other tag as it was; a selection without
    duplicates stays without duplicates; toggling twice restores the same
    set of tags, and the very same list when the tag was not selected. *)
Theorem toggleTag_flips (tag : list N) (prev : list (list N)) :
  (tag ∈ Views.toggleTag tag prev <-> tag ∉ prev)
  /\ (forall t, t <> tag -> (t ∈ Views.toggleTag tag prev <-> t ∈ prev))
  /\ (NoDup prev -> NoDup (Views.toggleTag tag prev))
  /\ (forall t, t ∈ Views.toggleTag tag (Views.toggleTag tag prev) <-> t ∈ prev)
  /\ (NoDup prev -> tag ∉ prev ->
      Views.toggleTag tag (Views.toggleTag tag prev) = prev).
Proof.
  assert (Hflip : forall p, tag ∈ Views.toggleTag tag p <-> tag ∉ p).
  { intros p. unfold Views.toggleTag.
    destruct (Views.includesItem p tag) eqn:Hin.
    - apply includesItem_true in Hin. rewrite elem_of_without. tauto.
    - apply includesItem_false in Hin. rewrite elem_of_app, list_elem_of_singleton. tauto. }
  assert (Hother : forall p t, t <> tag -> (t ∈ Views.toggleTag tag p <-> t ∈ p)).
  { intros p t Ht. unfold Views.toggleTag.
    destruct (Views.includesItem p tag).
    - rewrite elem_of_without. tauto.
    - rewrite elem_of_app, list_elem_of_singleton. tauto. }
  split; [apply Hflip|]. split; [apply Hother|]. split; [|split].
  - intros Hnd. unfold Views.toggleTag.
    destruct (Views.includesItem prev tag) eqn:Hin.
    + by apply NoDup_without.
    + apply NoDup_snoc; [done | by apply includesItem_false].
  - intros t. destruct (decide (t = tag)) as [->|Ht].
    + rewrite Hflip, Hflip. destruct (decide (tag ∈ prev)); tauto.
    + by rewrite !Hother.
  - intros Hnd Hnot. unfold Views.toggleTag at 2.
    rewrite (proj2 (includesItem_false prev tag) Hnot).
    unfold Views.toggleTag.
    assert (Views.includesItem (prev ++ [tag]) tag = true) as ->.
    { apply includesItem_true, elem_of_app. right. by apply list_elem_of_singleton. }
    by apply without_snoc.
Qed.

Example toggleTag_twice_moves :
  Views.toggleTag (js "a") (Views.toggleTag (js "a") [js "a"; js "b"]) = [js "b"; js "a"].
Proof. reflexivity. Qed.

(** X17.  Adding a tag in the notes editor, or a URL in the URL list, keeps
    the entries already there in place, appends the input only when it is
    non-empty and not yet listed, and then clears the input field; so a list
    without duplicates stays without duplicates, the empty string is never
    added, and adding the same input again changes nothing.  Removing an
    entry takes out every occurrence, and undoes an addition that appended. *)
Theorem addItem_keeps_list_clean (input : list N) (l : list (list N)) :
  (exists added, fst (Views.addItem input l) = l ++ added
                 /\ ((added = [] /\ snd (Views.addItem input l) = input)
                     \/ (added = [input] /\ snd (Views.addItem input l) = []
                         /\ input <> [] /\ input ∉ l)))
  /\ (input <> [] -> input ∈ fst (Views.addItem input l))
  /\ (NoDup l -> NoDup (fst (Views.addItem input l)))
  /\ ([] ∉ l -> [] ∉ fst (Views.addItem input l))
  /\ fst (Views.addItem input (fst (Views.addItem input l))) = fst (Views.addItem input l)
  /\ (input ∉ Views.removeTag input (fst (Views.addTag input l)))
  /\ (input ∉ l -> Views.removeTag input (fst (Views.addTag input l)) = l)
  /\ (NoDup l -> NoDup (Views.removeUrl input l)).
Proof.
  assert (Hrem : forall k, input ∉ Views.without input k).
  { intros k. rewrite elem_of_without. tauto. }
  assert (Hcases :
    (Views.addItem input l = (l, input) /\ (input = [] \/ input ∈ l))
    \/ (Views.addItem input l = (l ++ [input], []) /\ input <> [] /\ input ∉ l)).
  { unfold Views.addItem. destruct input as [|c x]; [left; by split; [|left]|].
    cbn [truthy andb]. destruct (Views.includesItem l (c :: x)) eqn:Hin; cbn [negb].
    - left. split; [done|]. right. by apply includesItem_true.
    - right. split; [done|]. split; [done | by apply includesItem_false]. }
  unfold Views.addTag, Views.removeTag, Views.removeUrl.
  destruct Hcases as [[Heq Hwhy]|(Heq & Hne & Hnot)]; rewrite Heq; cbn [fst snd].
  - split; [exists []; rewrite app_nil_r; tauto|].
    split; [intros Hne; by destruct Hwhy|]. split; [done|]. split; [done|].
    split; [by rewrite Heq|]. split; [apply Hrem|]. split; [|apply NoDup_without].
    intros Hx. unfold Views.without. apply filter_true_id_on. intros t Hin.
    apply negb_true_iff. destruct (eqb t input) eqn:E; [|done].
    apply eqb_eq in E. by subst.
  - assert (Hin : input ∈ l ++ [input]).
    { apply elem_of_app. right. by apply list_elem_of_singleton. }
    split; [exists [input]; tauto|]. split; [done|].
    split; [intros Hnd; by apply NoDup_snoc|].
    split. { intros Hl [H|H%list_elem_of_singleton]%elem_of_app; [done | by subst]. }
    split. { unfold Views.addItem. rewrite (proj2 (includesItem_true _ _) Hin).
             by rewrite andb_false_r. }
    split; [apply Hrem|]. split; [intros _; by apply without_snoc | apply NoDup_without].
Qed.

Lemma addAll_spec (seen items : list (list N)) :
  NoDup seen ->
  NoDup (Views.addAll seen items)
  /\ (forall t, t ∈ Views.addAll seen items <-> t ∈ seen \/ t ∈ items).
Proof.
  revert seen. induction items as [|x items IH]; intros seen Hnd; cbn [Views.addAll].
  - split; [done|]. intros t. rewrite elem_of_nil. tauto.
  - destruct (Views.includesItem seen x) eqn:Hin.
    + apply includesItem_true in Hin. destruct (IH seen Hnd) as [H1 H2].
      split; [done|]. intros t. rewrite H2, elem_of_cons.
      split; [tauto|]. intros [?|[->|?]]; tauto.
    + apply includesItem_false in Hin.
      destruct (IH (seen ++ [x]) (NoDup_snoc _ _ Hnd Hin)) as [H1 H2].
      split; [done|]. intros t.
      rewrite H2, elem_of_app, list_elem_of_singleton, elem_of_cons. tauto.
Qed.

(** X18.  The tag list offered for filtering holds every tag of every loaded
    article, each exactly once, and nothing else. *)
Theorem allTags_each_once (articles : list Article) :
  NoDup (Views.allTags articles)
  /\ (forall t, t ∈ Views.allTags articles
                <-> exists a, a ∈ articles /\ t ∈ tags (art_fields a)).
Proof.
  unfold Views.allTags. destruct (addAll_spec [] (flat_map (fun a => tags (art_fields a))
                                                   articles) (NoDup_nil_2)) as [H1 H2].
  split; [done|]. intros t. rewrite H2, elem_of_nil, list_elem_of_In, in_flat_map.
  split.
  - intros [[]|(a & Ha & Ht)]. exists a. split; by apply list_elem_of_In.
  - intros (a & Ha & Ht). right. exists a. split; by apply list_elem_of_In.
Qed.

Lemma isStemUnit_lower (c : N) :
  isStemUnit (lowerUnit (if Views.isAlnum c then c else 95)) = true.
Proof.
  unfold Views.isAlnum.
  repeat match goal with
         | |- context [N.leb ?a ?b] => destruct (N.leb_spec a b)
         end; cbn [andb orb]; try reflexivity;
    unfold lowerUnit, isStemUnit;
    repeat match goal with
           | |- context [N.leb ?a ?b] => destruct (N.leb_spec a b)
           | |- context [N.eqb ?a ?b] => destruct (N.eqb_spec a b)
           end; cbn [andb orb] in *; try reflexivity; lia.
Qed.

Lemma stemUnit_fixed (d : N) :
  isStemUnit d = true -> lowerUnit (if Views.isAlnum d then d else 95) = d.
Proof.
  unfold isStemUnit, Views.isAlnum, lowerUnit.
  repeat match goal with
         | |- context [N.leb ?a ?b] => destruct (N.leb_spec a b)
         | |- context [N.eqb ?a ?b] => destruct (N.eqb_spec a b)
         end; cbn [andb orb] in *; intros; try discriminate; try reflexivity;
    repeat match goal with
           | |- context [N.leb ?a ?b] => destruct (N.leb_spec a b)
           end; cbn [andb orb] in *; try reflexivity; lia.
Qed.

Lemma fileStem_units (title : list N) :
  Forall (fun c => isStemUnit c = true) (Views.fileStem title).
Proof.
  unfold Views.fileStem, toLowerCase. rewrite List.map_map.
  apply Forall_forall. intros c Hc%list_elem_of_In.
  apply in_map_iff in Hc as (d & <- & _). apply isStemUnit_lower.
Qed.

Lemma breaks_no_newline (s : list N) : 10 ∉ Views.breaks s.
Proof.
  unfold Views.breaks. rewrite list_elem_of_In, in_flat_map.
  intros (c & _ & Hc). destruct (N.eqb c 10) eqn:E.
  - cbn in Hc. repeat destruct Hc as [Hc|Hc]; done.
  - destruct Hc as [Hc|[]]. apply N.eqb_neq in E. congruence.
Qed.

(** X19.  The name of an exported file is the sanitised title followed by
    the extension of the format.  The sanitised title has as many code
    units as the title and consists of [a]-[z], [0]-[9] and [_] only, so
    the name holds no separator, no space and no dot but the one of the
    extension; sanitising again changes nothing.  The HTML export holds no
    line break taken from the content. *)
Theorem exportArticle_filename (stringify : Article -> list N) (article : Article)
    (fmt : Views.format) :
  snd (fst (Views.exportArticle stringify article fmt))
  = Views.fileStem (art_title (art_fields article))
    ++ match fmt with
       | Views.Markdown => js ".md"
       | Views.Html => js ".html"
       | Views.Json => js ".json"
       end
  /\ length (Views.fileStem (art_title (art_fields article)))
     = length (art_title (art_fields article))
  /\ Forall (fun c => isStemUnit c = true)
            (Views.fileStem (art_title (art_fields article)))
  /\ Views.fileStem (Views.fileStem (art_title (art_fields article)))
     = Views.fileStem (art_title (art_fields article))
  /\ 10 ∉ Views.breaks (content (art_fields article)).
Proof.
  split; [by destruct fmt|]. split; [|split; [apply fileStem_units|split]].
  - unfold Views.fileStem, toLowerCase. by rewrite !length_map.
  - pose proof (fileStem_units (art_title (art_fields article))) as Hu.
    induction Hu as [|d ds Hd _ IH]; [done|].
    unfold Views.fileStem, toLowerCase in *. cbn [List.map].
    rewrite (stemUnit_fixed d Hd). f_equal. exact IH.
  - apply breaks_no_newline.
Qed.

(** Two titles, one file name. *)
Example fileStem_collides :
  Views.fileStem (js "Hello, World!") = js "hello__world_"
  /\ Views.fileStem (js "Hello  World?") = js "hello__world_"
  /\ Views.fileStem [] = [].
Proof. repeat split. Qed.

Lemma substring_ordered (start stop : nat) (s : list N) :
  (start <= stop)%nat -> Views.substring start stop s = selection start stop s.
Proof.
  intros H. unfold Views.substring, selection.
  by rewrite Nat.max_r, Nat.min_l by lia.
Qed.

Lemma selection_from_0 (n : nat) (s : list N) : selection 0 n s = take n s.
Proof. unfold selection. by rewrite Nat.sub_0_r. Qed.

Lemma selection_split (start stop : nat) (content : list N) :
  (start <= stop)%nat ->
  content = take start content ++ selection start stop content ++ drop stop content.
Proof.
  intros H. unfold selection.
  rewrite <- (take_drop start content) at 1. f_equal.
  rewrite <- (take_drop (stop - start) (drop start content)) at 1. f_equal.
  rewrite drop_drop. f_equal. lia.
Qed.

(** X20.  Formatting in the notes editor touches the selection only: with
    [start <= stop], the new content is the text before the selection, the
    selection wrapped in the markers of the format ("**" for bold, "*" for
    italic, [<u>] and [</u>] for underline), and the text after it; an
    empty selection or a format without markers leaves the content as it
    was, so bold adds four code units or none. *)
Theorem applyFormat_selection_only (fmt : list N) (start stop : nat)
    (content : list N) :
  (start <= stop)%nat ->
  content = take start content ++ selection start stop content ++ drop stop content
  /\ (selection start stop content <> [] ->
      Views.applyFormat fmt start stop content
      = take start content ++ formatted fmt (selection start stop content)
        ++ drop stop content)
  /\ (selection start stop content = [] -> Views.applyFormat fmt start stop content = content)
  /\ (fmt <> js "bold" -> fmt <> js "italic" -> fmt <> js "underline" ->
      Views.applyFormat fmt start stop content = content)
  /\ length (Views.applyFormat (js "bold") start stop content)
     = (length content
        + if decide (selection start stop content = []) then 0 else 4)%nat.
Proof.
  intros Hle. pose proof (selection_split start stop content Hle) as Hsplit.
  assert (Hempty : selection start stop content = [] ->
                   Views.applyFormat fmt start stop content = content).
  { intros Hnil. unfold Views.applyFormat.
    rewrite (substring_ordered start stop) by done. by rewrite Hnil. }
  assert (Happly : forall f, selection start stop content <> [] ->
                   Views.applyFormat f start stop content
                   = take start content ++ formatted f (selection start stop content)
                     ++ drop stop content).
  { intros f Hsel. unfold Views.applyFormat.
    rewrite (substring_ordered start stop) by done.
    rewrite (substring_ordered 0 start), selection_from_0 by lia.
    by destruct (selection start stop content). }
  assert (Hplain : forall sel, fmt <> js "bold" -> fmt <> js "italic" ->
                               fmt <> js "underline" -> formatted fmt sel = sel).
  { intros sel H1 H2 H3. unfold formatted.
    destruct (eqb fmt (js "bold")) eqn:E1; [by apply eqb_eq in E1|].
    destruct (eqb fmt (js "italic")) eqn:E2; [by apply eqb_eq in E2|].
    destruct (eqb fmt (js "underline")) eqn:E3; [by apply eqb_eq in E3|]. done. }
  split; [done|]. split; [apply Happly|]. split; [done|]. split.
  - intros H1 H2 H3.
    destruct (decide (selection start stop content = [])) as [Hnil|Hsel]; [by apply Hempty|].
    rewrite Happly, Hplain by done. by rewrite <- Hsplit.
  - destruct (decide (selection start stop content = [])) as [Hnil|Hsel].
    + unfold Views.applyFormat. rewrite (substring_ordered start stop) by done.
      rewrite Hnil. cbn [truthy negb]. lia.
    + rewrite (Happly (js "bold")) by done. pose proof (f_equal length Hsplit) as Hlen.
      unfold formatted. rewrite eqb_refl.
      rewrite !length_app in *. cbn [length js List.map list_ascii_of_string]. lia.
Qed.

Lemma applyFormat_selection_only_witness :
  js "say hi now" = take 4 (js "say hi now") ++ selection 4 6 (js "say hi now")
                    ++ drop 6 (js "say hi now")
  /\ (selection 4 6 (js "say hi now") <> [] ->
      Views.applyFormat (js "bold") 4 6 (js "say hi now")
      = take 4 (js "say hi now") ++ formatted (js "bold") (selection 4 6 (js "say hi now"))
        ++ drop 6 (js "say hi now"))
  /\ (selection 4 6 (js "say hi now") = [] ->
      Views.applyFormat (js "bold") 4 6 (js "say hi now") = js "say hi now")
  /\ (js "bold" <> js "bold" -> js "bold" <> js "italic" -> js "bold" <> js "underline" ->
      Views.applyFormat (js "bold") 4 6 (js "say hi now") = js "say hi now")
  /\ length (Views.applyFormat (js "bold") 4 6 (js "say hi now"))
     = (length (js "say hi now")
        + if decide (selection 4 6 (js "say hi now") = []) then 0 else 4)%nat.
Proof.
  apply (applyFormat_selection_only (js "bold") 4 6 (js "say hi now")). lia.
Defined.

Example applyFormat_bold :
  Views.applyFormat (js "bold") 4 6 (js "say hi now") = js "say **hi** now".
Proof. reflexivity. Qed.

(** ** Saving from the views *)

Lemma newId_not_editorId (now : Z) (random36 : list N) (t : Z) :
  StorageService.newId "article_" now random36 <> Editor.editorId t.
Proof. discriminate. Qed.

(** X21.  Saving an article that was opened from the store and edited
    never updates the stored record.  The editor keeps the identifier, but
    the save goes through [saveArticle], which files the edited fields under
    a newly built identifier: the original stays as it was, and when the new
    identifier is free the store holds one record more, without the feed
    link of the original and marked as read. *)
Theorem editor_save_adds_a_copy (orig saved : Article) (ed : EditorState)
    (tId : Z) (tHighlight : nat -> Z) (tPublish now : Z) (random36 : list N)
    (st : Storage) :
  opened st = true ->
  articles (database st) !! art_id orig = Some (art_fields orig) ->
  art_id orig <> [] ->
  Editor.saveToKnowledge (Some orig) ed tId tHighlight tPublish = Some saved ->
  art_id saved = art_id orig
  /\ feedId (art_fields saved) = None /\ isRead (art_fields saved) = true
  /\ articles (database (Index.handleSaveToKnowledge (art_fields saved) now random36 st))
       !! art_id orig = Some (art_fields orig)
  /\ (articles (database st) !! StorageService.newId "article_" now random36 = None ->
      StorageService.newId "article_" now random36 <> art_id orig
      /\ articles (database (Index.handleSaveToKnowledge (art_fields saved) now random36 st))
         = <[StorageService.newId "article_" now random36 := art_fields saved]>
             (articles (database st))
      /\ size (articles (database (Index.handleSaveToKnowledge (art_fields saved)
                                     now random36 st)))
         = S (size (articles (database st)))).
Proof.
  intros Hopen Horig Hid. unfold Editor.saveToKnowledge.
  destruct (negb (truthy (ed_title ed)) || negb (truthy (ed_content ed))); [done|].
  intros [= <-]. cbn [art_id art_fields feedId isRead Editor.idOr].
  assert (truthy (art_id orig) = true) as -> by (by destruct (art_id orig)).
  split; [done|]. split; [done|]. split; [done|]. split.
  - unfold Index.handleSaveToKnowledge.
    by apply saveArticle_keeps_records.
  - intros Hfree. split; [congruence|].
    unfold Index.handleSaveToKnowledge, StorageService.saveArticle.
    rewrite Hopen, Hfree. cbn [snd database articles]. split; [done|].
    by apply map_size_insert_None.
Qed.

Lemma editor_save_adds_a_copy_witness :
  art_id (mkArticle (js "article_1_abc")
            (mkArticleFields None (js "edited") (Some (js "User")) 5 (js "new body")
               (Some (Editor.excerpt (js "new body"))) (js "https://example.com")
               true [js "t"] (Some (js "my notes"))
               (Some [mkHighlight (js "highlight_0") (js "article_1_abc") (js "new")
                        (js "yellow") (Some []) 0])))
  = art_id Cases.kept
  /\ size (articles (database
        (Index.handleSaveToKnowledge
           (mkArticleFields None (js "edited") (Some (js "User")) 5 (js "new body")
              (Some (Editor.excerpt (js "new body"))) (js "https://example.com")
              true [js "t"] (Some (js "my notes"))
              (Some [mkHighlight (js "highlight_0") (js "article_1_abc") (js "new")
                       (js "yellow") (Some []) 0]))
           1700000000000 Samples.draw Samples.ready_with_data)))
     = S (size (articles (database Samples.ready_with_data))).
Proof.
  destruct (editor_save_adds_a_copy Cases.kept
              (mkArticle (js "article_1_abc")
                 (mkArticleFields None (js "edited") (Some (js "User")) 5 (js "new body")
                    (Some (Editor.excerpt (js "new body"))) (js "https://example.com")
                    true [js "t"] (Some (js "my notes"))
                    (Some [mkHighlight (js "highlight_0") (js "article_1_abc") (js "new")
                             (js "yellow") (Some []) 0])))
              Notes.draft 0 Notes.clock 5 1700000000000 Samples.draw
              Samples.ready_with_data)
    as (Hid & _ & _ & _ & Hnew).
  - reflexivity.
  - vm_compute. reflexivity.
  - discriminate.
  - reflexivity.
  - split; [exact Hid|]. apply Hnew. vm_compute. reflexivity.
Defined.

(** X22.  A note written in the editor without a source article is filed
    under an identifier built by [saveArticle], not under the editor's own
    [editor_...] identifier, and each of its highlights names an
    [editor_...] identifier as its article: no highlight of a new note
    refers to the identifier its note is stored under. *)
Theorem new_note_highlights_dangle (saved : Article) (ed : EditorState)
    (tId : Z) (tHighlight : nat -> Z) (tPublish now : Z) (random36 : list N)
    (st : Storage) :
  opened st = true ->
  articles (database st) !! StorageService.newId "article_" now random36 = None ->
  Editor.saveToKnowledge None ed tId tHighlight tPublish = Some saved ->
  art_id saved = Editor.editorId tId
  /\ articles (database (Index.handleSaveToKnowledge (art_fields saved) now random36 st))
       !! StorageService.newId "article_" now random36 = Some (art_fields saved)
  /\ articles (database (Index.handleSaveToKnowledge (art_fields saved) now random36 st))
       !! art_id saved = articles (database st) !! art_id saved
  /\ exists hs, highlights (art_fields saved) = Some hs
                /\ length hs = length (ed_highlights ed)
                /\ forall h, h ∈ hs ->
                     hl_articleId h <> StorageService.newId "article_" now random36
                     /\ exists i, hl_articleId h = Editor.editorId (tHighlight i)
                                  /\ hl_id h = js "highlight_" ++ ofN (N.of_nat i)
                                  /\ hl_position h = Z.of_nat i.
Proof.
  intros Hopen Hfree. unfold Editor.saveToKnowledge.
  destruct (negb (truthy (ed_title ed)) || negb (truthy (ed_content ed))); [done|].
  intros [= <-]. cbn [art_id art_fields highlights Editor.idOr].
  unfold Index.handleSaveToKnowledge, StorageService.saveArticle.
  rewrite Hopen, Hfree. cbn [snd database articles].
  split; [done|]. split; [by rewrite lookup_insert_eq|]. split.
  - rewrite lookup_insert_ne; [done | apply newId_not_editorId].
  - eexists. split; [reflexivity|]. split; [by rewrite length_imap|].
    intros h (i & x & -> & _)%elem_of_lookup_imap. cbn.
    split; [intros H; symmetry in H; revert H; apply newId_not_editorId|].
    by exists i.
Qed.

Lemma new_note_highlights_dangle_witness :
  exists saved,
    Editor.saveToKnowledge None Notes.draft 7 Notes.clock 5 = Some saved
    /\ art_id saved = Editor.editorId 7
    /\ articles (database (Index.handleSaveToKnowledge (art_fields saved)
                             1700000000000 Samples.draw Samples.ready_with_data))
         !! StorageService.newId "article_" 1700000000000 Samples.draw
       = Some (art_fields saved).
Proof.
  eexists. split; [reflexivity|].
  match goal with
  | |- art_id ?s = _ /\ _ =>
      destruct (new_note_highlights_dangle s Notes.draft 7 Notes.clock 5 1700000000000
                  Samples.draw Samples.ready_with_data eq_refl eq_refl eq_refl)
        as (Hid & Hstored & _)
  end.
  split; [exact Hid | exact Hstored].
Defined.

(** X23.  Saving an AI summary stores it twice: the component saves the
    summary itself and then hands it to the page, which saves it again.
    With two different free identifiers the store gains two records with
    the same fields; when both calls build the same identifier the second
    save is rejected and one record is added; a rejected first save adds
    nothing. *)
Theorem summary_saved_twice (a : Article) (summary : list N) (tPublish now1 : Z)
    (random1 : list N) (now2 : Z) (random2 : list N) (st : Storage) :
  opened st = true ->
  summary <> [] ->
  articles (database st) !! StorageService.newId "article_" now1 random1 = None ->
  (StorageService.newId "article_" now2 random2
   <> StorageService.newId "article_" now1 random1 ->
   articles (database st) !! StorageService.newId "article_" now2 random2 = None ->
   articles (database (SummarizerView.handleSaveToKnowledge (Some a) summary tPublish
                         now1 random1 now2 random2 st))
   = <[StorageService.newId "article_" now2 random2
         := SummarizerView.summaryArticle a summary tPublish]>
       (<[StorageService.newId "article_" now1 random1
            := SummarizerView.summaryArticle a summary tPublish]>
          (articles (database st)))
   /\ size (articles (database (SummarizerView.handleSaveToKnowledge (Some a) summary
                                  tPublish now1 random1 now2 random2 st)))
      = S (S (size (articles (database st)))))
  /\ (StorageService.newId "article_" now2 random2
      = StorageService.newId "article_" now1 random1 ->
      articles (database (SummarizerView.handleSaveToKnowledge (Some a) summary tPublish
                            now1 random1 now2 random2 st))
      = <[StorageService.newId "article_" now1 random1
            := SummarizerView.summaryArticle a summary tPublish]>
          (articles (database st))).
Proof.
  intros Hopen Hs Hfree1. unfold SummarizerView.handleSaveToKnowledge.
  assert (truthy summary = true) as -> by (by destruct summary).
  unfold Index.handleSaveToKnowledge, StorageService.saveArticle.
  rewrite Hopen, Hfree1. cbn [opened database articles]. split.
  - intros Hne Hfree2. rewrite lookup_insert_ne by done. rewrite Hfree2.
    cbn [snd database articles]. split; [done|].
    rewrite map_size_insert_None by (by rewrite lookup_insert_ne).
    by rewrite map_size_insert_None.
  - intros ->. by rewrite lookup_insert_eq.
Qed.

Lemma summary_saved_twice_witness :
  size (articles (database (SummarizerView.handleSaveToKnowledge (Some Cases.kept)
                              (js "short") 5 1 (js "0.aaa") 2 (js "0.bbb")
                              Samples.ready_with_data)))
  = S (S (size (articles (database Samples.ready_with_data)))).
Proof.
  apply (proj1 (summary_saved_twice Cases.kept (js "short") 5 1 (js "0.aaa") 2 (js "0.bbb")
                  Samples.ready_with_data eq_refl ltac:(discriminate)
                  ltac:(vm_compute; reflexivity))).
  - discriminate.
  - vm_compute. reflexivity.
Defined.








(** ** Filtering and sorting in the knowledge store view *)







